(** * EEG mental tracker: a shallow embedding of the windowed pipeline

    The development follows the Python sources module by module:
    [modules/eeg_simulator.py], [modules/signal_processor.py],
    [modules/mental_state_classifier.py], [modules/recommendation_engine.py]
    and the streaming loop and command handlers of [app.py].

    Numbers.  Python [int] is [Z].  Python [float] is modelled by the exact
    rationals [Q]: decimal literals of the source ([0.1], [2.5], ...) are the
    same decimals in [Q_scope], and [+ - * /] are the field operations.
    IEEE rounding, infinities and NaN are outside this model: where the
    program rounds (a sum or quotient of floats, the mean of a window, the
    clock at a sampling rate that is not a power of two) the model is exact.
    The theorems are therefore stated on what rounding does not disturb:
    comparisons, [min], [max] and the final clamp of a level, integer
    arithmetic, the clock at 256 Hz, whose period is a power of two, and
    bounds that keep a margin.  The result of [np.random.randn() * 0.5] is
    an explicit argument [noise].

    Effects.  Objects and module globals are records passed in and out.  A
    raised exception is [None].  What a handler or the loop hands to SocketIO
    is returned as a list; [print] only writes to the console and is left
    out. *)

From Stdlib Require Import ZArith QArith Qround Qminmax Lia Lqa.
From Stdlib Require Import List Sorted Permutation String.
From stdpp Require Import gmap strings list fin_maps.

Local Open Scope Z_scope.
Local Open Scope Q_scope.

(** ** Python builtins on numbers *)

Module Py.

(** [a < b] on floats, as a boolean. *)
Definition ltb (a b : Q) : bool := negb (Qle_bool b a).

(** [a <= b] on floats, as a boolean. *)
Definition leb (a b : Q) : bool := Qle_bool a b.

(** [min(a, b)]: the first argument unless the second is strictly smaller. *)
Definition min (a b : Q) : Q := if ltb b a then b else a.

(** [max(a, b)]: the first argument unless the second is strictly greater. *)
Definition max (a b : Q) : Q := if ltb a b then b else a.

(** [int(x)] on a float: truncation towards zero. *)
Definition int (x : Q) : Z := Z.quot (Qnum x) (Z.pos (Qden x)).

(** [sum(l)]: left fold starting from [0]. *)
Definition sum (l : list Q) : Q := fold_left Qplus l 0.

(** [l.sort(key=key)]: the stable sort by ascending key.  Stability fixes
    the result, so the insertion sort below computes what any stable sort
    does: each element is placed before the first element of the sorted
    tail whose key is not smaller. *)
Fixpoint insert_key {A} (key : A -> Z) (x : A) (l : list A) : list A :=
  match l with
  | [] => [x]
  | y :: l' =>
      if (key x <=? key y)%Z then x :: y :: l'
      else y :: insert_key key x l'
  end.

Fixpoint sort {A} (key : A -> Z) (l : list A) : list A :=
  match l with
  | [] => []
  | x :: l' => insert_key key x (sort key l')
  end.

(** [l[-n:]] for a positive constant [n]: the last [n] elements, or the whole
    list when it is shorter. *)
Definition last_n {A} (n : nat) (l : list A) : list A :=
  drop (length l - n) l.

End Py.

(** ** modules/eeg_simulator.py *)

Module EEGSimulator.

Inductive MentalStateMode := RELAXED | FOCUSED | STRESSED | SLEEPY.

(** [MentalStateMode.value] *)
Definition value (m : MentalStateMode) : string :=
  match m with
  | RELAXED => "relaxed"
  | FOCUSED => "focused"
  | STRESSED => "stressed"
  | SLEEPY => "sleepy"
  end.

Record EEGSample := {
  timestamp : Q;
  delta : Q;
  theta : Q;
  alpha : Q;
  beta : Q;
  gamma : Q
}.

(** The simulator object: [self.sampling_rate], [self.time],
    [self.current_mode]. *)
Record t := {
  sampling_rate : Z;
  time : Q;
  current_mode : MentalStateMode
}.

(** [EEGSimulator.__init__] *)
Definition init (sampling_rate : Z) : t :=
  {| sampling_rate := sampling_rate; time := 0.0; current_mode := RELAXED |}.

(** The five raw band values chosen by the [if/elif/else] chain of
    [generate_sample].  The argument [mode] is [Some m] for a member of the
    enumeration and [None] for any other object, which takes the final
    [else] branch. *)
Definition profile (mode : option MentalStateMode) (noise : Q)
  : Q * Q * Q * Q * Q :=
  match mode with
  | Some RELAXED  => (5 + noise, 8 + noise, 15 + noise, 5 + noise, 2 + noise)
  | Some FOCUSED  => (3 + noise, 5 + noise, 7 + noise, 18 + noise, 8 + noise)
  | Some STRESSED => (4 + noise, 6 + noise, 4 + noise, 20 + noise, 12 + noise)
  | Some SLEEPY   => (12 + noise, 10 + noise, 6 + noise, 3 + noise, 1 + noise)
  | None          => (5 + noise, 5 + noise, 5 + noise, 5 + noise, 5 + noise)
  end.

(** [EEGSimulator.generate_sample] *)
Definition generate_sample (self : t) (mode : option MentalStateMode)
    (noise : Q) : EEGSample :=
  let '(delta, theta, alpha, beta, gamma) := profile mode noise in
  {| timestamp := time self;
     delta := Py.max 0.1 delta;
     theta := Py.max 0.1 theta;
     alpha := Py.max 0.1 alpha;
     beta := Py.max 0.1 beta;
     gamma := Py.max 0.1 gamma |}.

(** The body of the [for] loop of [stream_samples], run [count] times; the
    [k]-th sample of the run uses the noise draw [noise k].  The clock
    advances by the exact period; the program adds the rounded
    [1.0 / sampling_rate], which is the same at 256 Hz. *)
Fixpoint stream_loop (count : nat) (self : t) (mode : option MentalStateMode)
    (noise : nat -> Q) : list EEGSample * t :=
  match count with
  | O => ([], self)
  | S count' =>
      let sample := generate_sample self mode (noise O) in
      let self' :=
        {| sampling_rate := sampling_rate self;
           time := time self + 1.0 / inject_Z (sampling_rate self);
           current_mode := current_mode self |} in
      let '(rest, self'') :=
        stream_loop count' self' mode (fun k => noise (S k)) in
      (sample :: rest, self'')
  end.

(** [EEGSimulator.stream_samples], consumed to the end as [list(...)] does.
    The count truncates the exact product; the program truncates the
    rounded one, which is the same at 256 Hz. *)
Definition stream_samples (self : t) (mode : option MentalStateMode)
    (duration_seconds : Q) (noise : nat -> Q) : list EEGSample * t :=
  let samples_count :=
    Py.int (inject_Z (sampling_rate self) * duration_seconds) in
  stream_loop (Z.to_nat samples_count) self mode noise.

(** [EEGSimulator.set_mode] *)
Definition set_mode (self : t) (mode : MentalStateMode) : t :=
  {| sampling_rate := sampling_rate self;
     time := time self;
     current_mode := mode |}.

(** [EEGSimulator.reset_time] *)
Definition reset_time (self : t) : t :=
  {| sampling_rate := sampling_rate self;
     time := 0.0;
     current_mode := current_mode self |}.

End EEGSimulator.

(** ** modules/signal_processor.py *)

Module SignalProcessor.

(** The processor object: [self.sampling_rate], [self.window_size]. *)
Record t := {
  sampling_rate : Z;
  window_size : Z
}.

(** [SignalProcessor.__init__] *)
Definition init (sampling_rate : Z) (window_size_seconds : Q) : t :=
  {| sampling_rate := sampling_rate;
     window_size := Py.int (inject_Z sampling_rate * window_size_seconds) |}.

(** [np.mean] of a non-empty list, as the exact mean; [np.mean] itself
    rounds the sum and the quotient. *)
Definition np_mean (l : list Q) : Q :=
  Py.sum l / inject_Z (Z.of_nat (length l)).

(** [SignalProcessor._empty_result] *)
Definition _empty_result : gmap string Q :=
  {[ "delta_power" := 0.0;
     "theta_power" := 0.0;
     "alpha_power" := 0.0;
     "beta_power" := 0.0;
     "gamma_power" := 0.0;
     "timestamp" := 0.0 ]}.

(** [SignalProcessor.analyze_eeg_window].  A band-powers dictionary is a
    finite map from key to float. *)
Definition analyze_eeg_window (samples : list EEGSimulator.EEGSample)
  : gmap string Q :=
  match last samples with
  | None => _empty_result
  | Some final =>
      let delta_samples := map EEGSimulator.delta samples in
      let theta_samples := map EEGSimulator.theta samples in
      let alpha_samples := map EEGSimulator.alpha samples in
      let beta_samples := map EEGSimulator.beta samples in
      let gamma_samples := map EEGSimulator.gamma samples in
      {[ "delta_power" := np_mean delta_samples;
         "theta_power" := np_mean theta_samples;
         "alpha_power" := np_mean alpha_samples;
         "beta_power" := np_mean beta_samples;
         "gamma_power" := np_mean gamma_samples;
         "timestamp" := EEGSimulator.timestamp final ]}
  end.

(** [SignalProcessor.calculate_ratios].  A subscript [band_powers[k]] on a
    missing key raises [KeyError]; the raised case is [None]. *)
Definition calculate_ratios (band_powers : gmap string Q)
  : option (gmap string Q) :=
  delta_power ← band_powers !! "delta_power";
  theta_power ← band_powers !! "theta_power";
  alpha_power ← band_powers !! "alpha_power";
  beta_power ← band_powers !! "beta_power";
  gamma_power ← band_powers !! "gamma_power";
  let total_power :=
    Py.sum [delta_power; theta_power; alpha_power; beta_power; gamma_power] in
  if Qeq_bool total_power 0 then
    Some {[ "beta_alpha_ratio" := 0; "theta_beta_ratio" := 0 ]}
  else
    let alpha := Py.max alpha_power 0.1 in
    let beta := Py.max beta_power 0.1 in
    Some {[ "beta_alpha_ratio" := beta / alpha;
            "theta_beta_ratio" := theta_power / beta;
            "total_power" := total_power ]}.

End SignalProcessor.

(** ** modules/mental_state_classifier.py *)

Module MentalStateClassifier.

Record MentalState := {
  stress_level : Z;
  focus_level : Z;
  sleepiness_level : Z;
  confidence : Q
}.

(** The classifier object and its four thresholds. *)
Record t := {
  stress_beta_threshold : Q;
  stress_alpha_threshold : Q;
  focus_beta_min : Q;
  sleepy_delta_threshold : Q
}.

(** [MentalStateClassifier.__init__] *)
Definition init : t :=
  {| stress_beta_threshold := 15.0;
     stress_alpha_threshold := 8.0;
     focus_beta_min := 12.0;
     sleepy_delta_threshold := 10.0 |}.

(** [MentalStateClassifier._calculate_stress] *)
Definition _calculate_stress (self : t) (beta_pct alpha_pct gamma_pct : Q)
  : Z :=
  let stress_from_beta := Py.min 100 (beta_pct * 3) in
  let stress_from_alpha := Py.max 0 (50 - alpha_pct * 2) in
  let stress_from_gamma := Py.min 30 (gamma_pct * 2) in
  let total_stress :=
    (stress_from_beta + stress_from_alpha + stress_from_gamma) / 2.5 in
  Py.int (Py.min 100 (Py.max 0 total_stress)).

(** The [if/elif/else] on [beta_pct] at the head of [_calculate_focus]. *)
Definition focus_from_beta (beta_pct : Q) : Q :=
  if Py.leb 20 beta_pct && Py.leb beta_pct 35 then 60
  else if Py.ltb 35 beta_pct then Py.min 100 (beta_pct * 2)
  else beta_pct * 2.

(** [MentalStateClassifier._calculate_focus] *)
Definition _calculate_focus (self : t) (beta_pct gamma_pct alpha_pct : Q)
  : Z :=
  let focus_from_beta := focus_from_beta beta_pct in
  let focus_from_gamma := Py.min 40 (gamma_pct * 3) in
  let alpha_penalty := Py.max 0 ((alpha_pct - 30) * 0.5) in
  let total_focus := focus_from_beta + focus_from_gamma - alpha_penalty in
  Py.int (Py.min 100 (Py.max 0 total_focus)).

(** [MentalStateClassifier._calculate_sleepiness] *)
Definition _calculate_sleepiness (self : t) (delta_pct theta_pct beta_pct : Q)
  : Z :=
  let sleepy_from_slow := (delta_pct * 2 + theta_pct * 1.5) / 2 in
  let beta_penalty := Py.max 0 (30 - beta_pct) in
  let total_sleepiness := sleepy_from_slow + beta_penalty in
  Py.int (Py.min 100 (Py.max 0 total_sleepiness)).

(** [MentalStateClassifier._calculate_confidence] *)
Definition _calculate_confidence (self : t) (total_power : Q) : Q :=
  if Py.ltb 30 total_power then 0.9
  else if Py.ltb 20 total_power then 0.7
  else if Py.ltb 10 total_power then 0.5
  else 0.3.

(** [MentalStateClassifier.classify]; [None] is the [KeyError] of a
    subscript on a missing key. *)
Definition classify (self : t) (band_powers : gmap string Q)
  : option MentalState :=
  delta ← band_powers !! "delta_power";
  theta ← band_powers !! "theta_power";
  alpha ← band_powers !! "alpha_power";
  beta ← band_powers !! "beta_power";
  gamma ← band_powers !! "gamma_power";
  let total_power := delta + theta + alpha + beta + gamma in
  if Py.ltb total_power 1.0 then
    Some {| stress_level := 0;
            focus_level := 0;
            sleepiness_level := 0;
            confidence := 0.0 |}
  else
    let delta_pct := (delta / total_power) * 100 in
    let theta_pct := (theta / total_power) * 100 in
    let alpha_pct := (alpha / total_power) * 100 in
    let beta_pct := (beta / total_power) * 100 in
    let gamma_pct := (gamma / total_power) * 100 in
    let stress := _calculate_stress self beta_pct alpha_pct gamma_pct in
    let focus := _calculate_focus self beta_pct gamma_pct alpha_pct in
    let sleepiness :=
      _calculate_sleepiness self delta_pct theta_pct beta_pct in
    let confidence := _calculate_confidence self total_power in
    Some {| stress_level := stress;
            focus_level := focus;
            sleepiness_level := sleepiness;
            confidence := confidence |}.

End MentalStateClassifier.

(** ** modules/recommendation_engine.py *)

Module RecommendationEngine.

Import MentalStateClassifier.

Inductive RecommendationType :=
  BINAURAL_BEATS | MEDITATION | BREAK | BREATHING.

(** The dataclass [Recommendation]; [frequency_hz] defaults to [None]. *)
Record Recommendation := {
  type : RecommendationType;
  frequency_hz : option Q;
  duration_minutes : Z;
  title : string;
  description : string;
  priority : Z
}.

(** The engine object and its three thresholds. *)
Record t := {
  high_stress_threshold : Z;
  low_focus_threshold : Z;
  high_sleepiness_threshold : Z
}.

(** [RecommendationEngine.__init__] *)
Definition init : t :=
  {| high_stress_threshold := 60;
     low_focus_threshold := 40;
     high_sleepiness_threshold := 70 |}.

(** [RecommendationEngine._stress_recommendations] *)
Definition _stress_recommendations (self : t) : list Recommendation :=
  [ {| type := BINAURAL_BEATS;
       frequency_hz := Some 10.0;
       duration_minutes := 10;
       title := "🎵 Alpha Dalgası - Stres Azaltıcı";
       description := "10 Hz Alpha dalgası ile derin rahatlamayı destekler. Kulaklıkla dinlemeniz önerilir.";
       priority := 1 |};
    {| type := BREATHING;
       frequency_hz := None;
       duration_minutes := 5;
       title := "🫁 4-7-8 Nefes Tekniği";
       description := "4 saniye burnunuzdan nefes alın, 7 saniye tutun, 8 saniye ağzınızdan verin. 4 kez tekrarlayın.";
       priority := 1 |};
    {| type := MEDITATION;
       frequency_hz := None;
       duration_minutes := 10;
       title := "🧘 Beden Tarama Meditasyonu";
       description := "Vücudunuzdaki her bölgeyi sırayla tarayın ve gevşetin.";
       priority := 2 |} ].

(** [RecommendationEngine._focus_recommendations] *)
Definition _focus_recommendations (self : t) : list Recommendation :=
  [ {| type := BINAURAL_BEATS;
       frequency_hz := Some 20.0;
       duration_minutes := 15;
       title := "🎵 Beta Dalgası - Konsantrasyon Artırıcı";
       description := "20 Hz Beta dalgası ile odaklanmayı destekler. Çalışma sırasında arka planda çalabilir.";
       priority := 1 |};
    {| type := BREAK;
       frequency_hz := None;
       duration_minutes := 5;
       title := "☕ Kısa Mola";
       description := "5 dakika ayağa kalkın, gerinin, su için. Pomodoro tekniği: 25 dk çalış, 5 dk mola.";
       priority := 2 |} ].

(** [RecommendationEngine._sleepiness_recommendations] *)
Definition _sleepiness_recommendations (self : t) : list Recommendation :=
  [ {| type := BREAK;
       frequency_hz := None;
       duration_minutes := 10;
       title := "🚶 Enerji Molası";
       description := "Kısa yürüyüş veya hafif germe hareketleri. Dışarı çıkıp güneş ışığı almanız faydalı olacaktır.";
       priority := 1 |};
    {| type := BINAURAL_BEATS;
       frequency_hz := Some 15.0;
       duration_minutes := 10;
       title := "🎵 Uyanıklık Artırıcı";
       description := "15 Hz ile uyanıklığı destekler.";
       priority := 2 |};
    {| type := BREATHING;
       frequency_hz := None;
       duration_minutes := 3;
       title := "🫁 Hızlı Enerji Nefesi";
       description := "Hızlı ve derin nefes alıp verme (Bellows Breath). 30 saniye hızlı nefes, 30 saniye normal nefes.";
       priority := 2 |} ].

(** [RecommendationEngine._maintenance_recommendations] *)
Definition _maintenance_recommendations (self : t) : list Recommendation :=
  [ {| type := MEDITATION;
       frequency_hz := None;
       duration_minutes := 5;
       title := "🧘 Mindfulness Anı";
       description := "Kısa bir farkındalık egzersizi ile zihninizi tazeleyin.";
       priority := 3 |} ].

(** The list [recommendations] of [generate] as the four [if] statements
    leave it, before the final sort. *)
Definition collect (self : t) (mental_state : MentalState)
  : list Recommendation :=
  let recommendations := [] in
  let recommendations :=
    if (high_stress_threshold self <? stress_level mental_state)%Z
    then recommendations ++ _stress_recommendations self
    else recommendations in
  let recommendations :=
    if (focus_level mental_state <? low_focus_threshold self)%Z
    then recommendations ++ _focus_recommendations self
    else recommendations in
  let recommendations :=
    if (high_sleepiness_threshold self <? sleepiness_level mental_state)%Z
    then recommendations ++ _sleepiness_recommendations self
    else recommendations in
  let recommendations :=
    if ((low_focus_threshold self <=? focus_level mental_state)%Z
        && (focus_level mental_state <=? 70)%Z)
       && (stress_level mental_state <? high_stress_threshold self)%Z
       && (sleepiness_level mental_state <? high_sleepiness_threshold self)%Z
    then recommendations ++ _maintenance_recommendations self
    else recommendations in
  recommendations.

(** [RecommendationEngine.generate] *)
Definition generate (self : t) (mental_state : MentalState)
  : list Recommendation :=
  Py.sort priority (collect self mental_state).

End RecommendationEngine.

(** ** app.py *)

Module App.

Import EEGSimulator.

(** The [data_packet] dictionary built for each analysed window, one field
    per key.  [timestamp] is the text of [datetime.now().isoformat()], an
    input of the iteration; [mental_state] and [recommendations] carry the
    fields that the packet copies out of the two dataclasses. *)
Record DataPacket := {
  packet_timestamp : string;
  packet_band_powers : gmap string Q;
  packet_mental_state : MentalStateClassifier.MentalState;
  packet_recommendations : list RecommendationEngine.Recommendation;
  packet_current_mode : string
}.

(** What is handed to SocketIO: [socketio.emit(event, data_packet)] from the
    loop, [emit(event, payload, broadcast=...)] from a handler.  Without
    [broadcast=True] a handler's [emit] goes to the calling client only. *)
Inductive Emitted :=
  | emit_packet (event : string) (packet : DataPacket)
  | emit (event : string) (payload : gmap string string) (broadcast : bool).

(** The module-level objects that are never reassigned. *)
Definition processor : SignalProcessor.t := SignalProcessor.init 256 2.0.
Definition classifier : MentalStateClassifier.t := MentalStateClassifier.init.
Definition engine : RecommendationEngine.t := RecommendationEngine.init.

(** The mutable globals, with the simulator object. *)
Record Globals := {
  simulator : EEGSimulator.t;
  eeg_buffer : list EEGSample;
  session_data : list DataPacket;
  current_mode : MentalStateMode;
  is_streaming : bool
}.

(** The globals at import time. *)
Definition initial : Globals :=
  {| simulator := EEGSimulator.init 256;
     eeg_buffer := [];
     session_data := [];
     current_mode := RELAXED;
     is_streaming := false |}.

(** The test [len(eeg_buffer) >= 512] of the loop. *)
Definition window_ready (eeg_buffer : list EEGSample) : bool :=
  (512 <=? length eeg_buffer)%nat.

(** One pass through the body of [while True] in [background_eeg_stream].
    The result is the globals after the pass, what was emitted, and the
    argument of the [time.sleep] that ends the pass.  An exception raised
    inside [try] (here only the [KeyError] of [classify]) is caught: the
    statements after the raising one are skipped and the pass sleeps 1. *)
Definition stream_iteration (g : Globals) (now : string) (noise : nat -> Q)
  : Globals * list Emitted * Q :=
  if negb (is_streaming g) then (g, [], 0.5)
  else
    let '(samples, simulator') :=
      stream_samples (simulator g) (Some (current_mode g)) 0.25 noise in
    let eeg_buffer := eeg_buffer g ++ samples in
    if window_ready eeg_buffer then
      let window_samples := Py.last_n 512 eeg_buffer in
      let band_powers := SignalProcessor.analyze_eeg_window window_samples in
      match MentalStateClassifier.classify classifier band_powers with
      | None =>
          ({| simulator := simulator';
              eeg_buffer := eeg_buffer;
              session_data := session_data g;
              current_mode := current_mode g;
              is_streaming := is_streaming g |}, [], 1)
      | Some mental_state =>
          let recommendations :=
            RecommendationEngine.generate engine mental_state in
          let data_packet :=
            {| packet_timestamp := now;
               packet_band_powers := band_powers;
               packet_mental_state := mental_state;
               packet_recommendations := recommendations;
               packet_current_mode := value (current_mode g) |} in
          ({| simulator := simulator';
              eeg_buffer := Py.last_n 256 eeg_buffer;
              session_data := session_data g ++ [data_packet];
              current_mode := current_mode g;
              is_streaming := is_streaming g |},
           [emit_packet "eeg_update" data_packet], 0.25)
      end
    else
      ({| simulator := simulator';
          eeg_buffer := eeg_buffer;
          session_data := session_data g;
          current_mode := current_mode g;
          is_streaming := is_streaming g |}, [], 0.25).

(** [handle_start_streaming] *)
Definition handle_start_streaming (g : Globals) : Globals * list Emitted :=
  ({| simulator := simulator g;
      eeg_buffer := eeg_buffer g;
      session_data := session_data g;
      current_mode := current_mode g;
      is_streaming := true |},
   [emit "streaming_started" {[ "status" := "streaming" ]} false]).

(** [handle_stop_streaming] *)
Definition handle_stop_streaming (g : Globals) : Globals * list Emitted :=
  ({| simulator := simulator g;
      eeg_buffer := eeg_buffer g;
      session_data := session_data g;
      current_mode := current_mode g;
      is_streaming := false |},
   [emit "streaming_stopped" {[ "status" := "stopped" ]} false]).

(** The dictionary [mode_map] of [handle_mode_change]. *)
Definition mode_map : gmap string MentalStateMode :=
  {[ "relaxed" := RELAXED;
     "focused" := FOCUSED;
     "stressed" := STRESSED;
     "sleepy" := SLEEPY ]}.

(** [handle_mode_change]; [data] is the command's JSON object. *)
Definition handle_mode_change (g : Globals) (data : gmap string string)
  : Globals * list Emitted :=
  let mode_str := default "relaxed" (data !! "mode") in
  match mode_map !! mode_str with
  | Some mode =>
      let g' :=
        {| simulator := simulator g;
           eeg_buffer := eeg_buffer g;
           session_data := session_data g;
           current_mode := mode;
           is_streaming := is_streaming g |} in
      (g',
       [emit "mode_changed"
          {[ "mode" := value (current_mode g');
             "message" :=
               "Mod " +:+ value (current_mode g') +:+ " olarak değiştirildi" ]}
          true])
  | None => (g, [emit "error" {[ "message" := "Geçersiz mod" ]} false])
  end.

(** [handle_connect]; [handle_disconnect] only prints. *)
Definition handle_connect (g : Globals) : Globals * list Emitted :=
  (g,
   [emit "connected"
      {[ "status" := "ready";
         "message" := "EEG Tracker hazır";
         "current_mode" := value (current_mode g) ]}
      false]).

(** The JSON body of [api_status], one field per key. *)
Record Status := {
  status : string;
  streaming : bool;
  status_current_mode : string;
  buffer_size : nat;
  session_data_count : nat
}.

(** [api_status] *)
Definition api_status (g : Globals) : Status :=
  {| status := "online";
     streaming := is_streaming g;
     status_current_mode := value (current_mode g);
     buffer_size := length (eeg_buffer g);
     session_data_count := length (session_data g) |}.

(** [clear_session] *)
Definition clear_session (g : Globals) : Globals * gmap string string :=
  ({| simulator := simulator g;
      eeg_buffer := eeg_buffer g;
      session_data := [];
      current_mode := current_mode g;
      is_streaming := is_streaming g |},
   {[ "status" := "success"; "message" := "Session temizlendi" ]}).




(** [n] consecutive passes of the loop with no command in between; pass [k]
    reads the clock text [now k] and the noise draws [noise k]. *)
Fixpoint run (n : nat) (g : Globals) (now : nat -> string)
    (noise : nat -> nat -> Q) : Globals * list Emitted :=
  match n with
  | O => (g, [])
  | S n' =>
      let '(g1, emitted1, _) := stream_iteration g (now O) (noise O) in
      let '(g2, emitted2) :=
        run n' g1 (fun k => now (S k)) (fun k => noise (S k)) in
      (g2, emitted1 ++ emitted2)
  end.

End App.

(** ** The focus formula as the design document words it *)

Module FocusSpec.


(** Clamp to the interval [[lo, hi]]. *)
Definition clamp (lo hi x : Q) : Q := Qmin hi (Qmax lo x).

(** Integer truncation: drop the fractional part. *)
Definition trunc (x : Q) : Z :=
  if Qlt_le_dec x 0 then Qceiling x else Qfloor x.

(** The beta contribution: 60 when [beta%] lies in [[20,35]],
    [min(100, 2 * beta%)] when [beta% > 35], otherwise [2 * beta%]. *)
Definition beta_term (beta_pct : Q) : Q :=
  if Qle_bool 20 beta_pct && Qle_bool beta_pct 35 then 60
  else if negb (Qle_bool beta_pct 35) then Qmin 100 (2 * beta_pct)
  else 2 * beta_pct.

(** Beta contribution plus [min(40, 3 * gamma%)] minus
    [max(0, (alpha% - 30) * 0.5)], clamped to [[0,100]], then truncated. *)
Definition focus (beta_pct gamma_pct alpha_pct : Q) : Z :=
  trunc (clamp 0 100
           (beta_term beta_pct
            + Qmin 40 (3 * gamma_pct)
            - Qmax 0 ((alpha_pct - 30) * 0.5))).

End FocusSpec.

(** ** Scenarios *)

Module Scenarios.

Import MentalStateClassifier RecommendationEngine App.

(** The window means of the STRESSED profile at zero noise. *)
Definition stressed_powers : gmap string Q :=
  {[ "delta_power" := 4; "theta_power" := 6; "alpha_power" := 4;
     "beta_power" := 20; "gamma_power" := 12; "timestamp" := 2 ]}.

(** A window too weak to trust: every band at the generator's floor. *)
Definition weak_powers : gmap string Q :=
  {[ "delta_power" := 0.1; "theta_power" := 0.1; "alpha_power" := 0.1;
     "beta_power" := 0.1; "gamma_power" := 0.1; "timestamp" := 2 ]}.

(** Two scenarios of the engine's own test code. *)
Definition high_stress : MentalState :=
  {| stress_level := 85; focus_level := 50; sleepiness_level := 30;
     confidence := 0.8 |}.

Definition normal_state : MentalState :=
  {| stress_level := 35; focus_level := 60; sleepiness_level := 30;
     confidence := 0.8 |}.

(** A calm, alert, strongly focused state. *)
Definition deep_focus : MentalState :=
  {| stress_level := 0; focus_level := 80; sleepiness_level := 0;
     confidence := 0.9 |}.

(** Streaming globals whose buffer is 64 samples short of a window. *)
Definition nearly_full : Globals :=
  {| simulator := EEGSimulator.init 256;
     eeg_buffer :=
       replicate 448
         (EEGSimulator.generate_sample (EEGSimulator.init 256)
            (Some EEGSimulator.STRESSED) 0);
     session_data := [];
     current_mode := EEGSimulator.STRESSED;
     is_streaming := true |}.

End Scenarios.

(** ** Further scenarios *)

Module MoreScenarios.

Import MentalStateClassifier RecommendationEngine App.

(** Two STRESSED samples, drawn with noise 0.5 and -1. *)
Definition stressed_pair : list EEGSimulator.EEGSample :=
  [ EEGSimulator.generate_sample (EEGSimulator.init 256)
      (Some EEGSimulator.STRESSED) 0.5;
    EEGSimulator.generate_sample (EEGSimulator.init 256)
      (Some EEGSimulator.STRESSED) (-1) ].

(** The globals right after the start command. *)
Definition started : Globals := (handle_start_streaming App.initial).1.

(** Globals whose session holds one packet of a high-stress window. *)
Definition one_packet : Globals :=
  {| simulator := EEGSimulator.init 256;
     eeg_buffer := [];
     session_data :=
       [ {| packet_timestamp := "2026-01-01T00:00:00";
            packet_band_powers := Scenarios.stressed_powers;
            packet_mental_state := Scenarios.high_stress;
            packet_recommendations :=
              generate RecommendationEngine.init Scenarios.high_stress;
            packet_current_mode := "stressed" |} ];
     current_mode := EEGSimulator.STRESSED;
     is_streaming := false |}.

End MoreScenarios.

(** ** Ordering by key *)

(** [x] may stand before [y] in a list sorted by ascending [key]. *)
Definition key_le {A} (key : A -> Z) (x y : A) : Prop := (key x <= key y)%Z.

(** ** Predicates on samples, states and packets *)

(** The five band values of a sample, in the order of the dataclass. *)
Definition bands (s : EEGSimulator.EEGSample) : list Q :=
  [EEGSimulator.delta s; EEGSimulator.theta s; EEGSimulator.alpha s;
   EEGSimulator.beta s; EEGSimulator.gamma s].

(** Every band of the sample lies in [[lo, hi]]. *)
Definition within (lo hi : Q) (s : EEGSimulator.EEGSample) : Prop :=
  Forall (fun x => lo <= x /\ x <= hi) (bands s).

(** The three levels are in [[0, 100]]. *)
Definition levels_in_range (ms : MentalStateClassifier.MentalState) : Prop :=
  (0 <= MentalStateClassifier.stress_level ms <= 100)%Z /\
  (0 <= MentalStateClassifier.focus_level ms <= 100)%Z /\
  (0 <= MentalStateClassifier.sleepiness_level ms <= 100)%Z.

(** A stored packet agrees with the pipeline that built it. *)
Definition packet_consistent (p : App.DataPacket) : Prop :=
  MentalStateClassifier.classify App.classifier (App.packet_band_powers p)
  = Some (App.packet_mental_state p) /\
  levels_in_range (App.packet_mental_state p) /\
  App.packet_recommendations p
  = RecommendationEngine.generate App.engine (App.packet_mental_state p) /\
  exists mode, App.packet_current_mode p = EEGSimulator.value mode.

(** Buffer fill and number of stored packets after one streaming pass at
    256 Hz, from the fill and the number before it: 64 samples come in, and
    a full window stores a packet and leaves 256 samples. *)
Definition fill_step (fill_count : nat * nat) : nat * nat :=
  let '(fill, count) := fill_count in
  if (512 <=? fill + 64)%nat then (256%nat, S count) else ((fill + 64)%nat, count).

(** The five keys that [classify] and [calculate_ratios] subscript. *)
Definition band_keys : list string :=
  ["delta_power"; "theta_power"; "alpha_power"; "beta_power"; "gamma_power"].

(** ** Facts about the builtins *)

Section PyFacts.

Lemma ltb_lt (a b : Q) : Py.ltb a b = true <-> a < b.
Proof.
  unfold Py.ltb. rewrite negb_true_iff, <- not_true_iff_false, Qle_bool_iff.
  split; [apply Qnot_le_lt | apply Qlt_not_le].
Qed.

Lemma ltb_ge (a b : Q) : Py.ltb a b = false <-> b <= a.
Proof.
  unfold Py.ltb. rewrite negb_false_iff. apply Qle_bool_iff.
Qed.

Lemma max_lower (a b : Q) : a <= Py.max a b.
Proof.
  unfold Py.max. destruct (Py.ltb a b) eqn:E.
  - apply ltb_lt in E. apply Qlt_le_weak, E.
  - apply Qle_refl.
Qed.

Lemma min_upper (a b : Q) : Py.min a b <= a.
Proof.
  unfold Py.min. destruct (Py.ltb b a) eqn:E.
  - apply ltb_lt in E. apply Qlt_le_weak, E.
  - apply Qle_refl.
Qed.

Lemma min_cases (a b : Q) :
  (b < a /\ Py.min a b = b) \/ (a <= b /\ Py.min a b = a).
Proof.
  unfold Py.min. destruct (Py.ltb b a) eqn:E.
  - left. split; [apply ltb_lt, E | reflexivity].
  - right. split; [apply ltb_ge, E | reflexivity].
Qed.

Lemma max_cases (a b : Q) :
  (a < b /\ Py.max a b = b) \/ (b <= a /\ Py.max a b = a).
Proof.
  unfold Py.max. destruct (Py.ltb a b) eqn:E.
  - left. split; [apply ltb_lt, E | reflexivity].
  - right. split; [apply ltb_ge, E | reflexivity].
Qed.

(** The builtins agree with the mathematical minimum and maximum. *)
Lemma min_Qmin (a b : Q) : Py.min a b == Qmin a b.
Proof.
  destruct (min_cases a b) as [[H ->]|[H ->]].
  - symmetry. apply Q.min_r, Qlt_le_weak, H.
  - symmetry. apply Q.min_l, H.
Qed.

Lemma max_Qmax (a b : Q) : Py.max a b == Qmax a b.
Proof.
  destruct (max_cases a b) as [[H ->]|[H ->]].
  - symmetry. apply Q.max_r, Qlt_le_weak, H.
  - symmetry. apply Q.max_l, H.
Qed.

#[local] Instance min_proper : Proper (Qeq ==> Qeq ==> Qeq) Py.min.
Proof. intros a a' Ha b b' Hb. now rewrite !min_Qmin, Ha, Hb. Qed.

#[local] Instance max_proper : Proper (Qeq ==> Qeq ==> Qeq) Py.max.
Proof. intros a a' Ha b b' Hb. now rewrite !max_Qmax, Ha, Hb. Qed.

Lemma min_lower (a b c : Q) : c <= a -> c <= b -> c <= Py.min a b.
Proof.
  intros Hca Hcb. unfold Py.min. destruct (Py.ltb b a); assumption.
Qed.

(** On a non-negative float, [int] is the floor. *)
Lemma int_floor (x : Q) : 0 <= x -> Py.int x = Qfloor x.
Proof.
  destruct x as [n d]. unfold Qle, Py.int, Qfloor. simpl. intros Hn.
  apply Z.quot_div_nonneg; lia.
Qed.

(** The last step of the three level formulas, [int(min(100, max(0, x)))],
    lands in [0, 100] whatever [x] is. *)
Lemma int_clamp_range (x : Q) :
  (0 <= Py.int (Py.min 100 (Py.max 0 x)) <= 100)%Z.
Proof.
  assert (Hlo : 0 <= Py.min 100 (Py.max 0 x)).
  { apply min_lower; [discriminate | apply max_lower]. }
  assert (Hhi : Py.min 100 (Py.max 0 x) <= 100) by apply min_upper.
  rewrite int_floor by exact Hlo. split.
  - change 0%Z with (Qfloor 0). apply Qfloor_resp_le, Hlo.
  - change 100%Z with (Qfloor 100). apply Qfloor_resp_le, Hhi.
Qed.

End PyFacts.

(** ** The stable sort *)

Section SortFacts.

Context {A : Type} (key : A -> Z).

#[local] Abbreviation key_le := (key_le key).

Lemma insert_key_perm (x : A) (l : list A) :
  Permutation (Py.insert_key key x l) (x :: l).
Proof.
  induction l as [|y l IH]; simpl; [reflexivity|].
  destruct (key x <=? key y)%Z; [reflexivity|].
  rewrite IH. apply perm_swap.
Qed.

Lemma sort_perm (l : list A) : Permutation (Py.sort key l) l.
Proof.
  induction l as [|x l IH]; simpl; [reflexivity|].
  rewrite insert_key_perm. now apply perm_skip.
Qed.

Lemma insert_key_sorted (x : A) (l : list A) :
  StronglySorted key_le l -> StronglySorted key_le (Py.insert_key key x l).
Proof.
  induction 1 as [|y l Hl IH Hy]; simpl.
  - constructor; constructor.
  - destruct (key x <=? key y)%Z eqn:E.
    + apply Z.leb_le in E. constructor; [now constructor|].
      constructor; [exact E|].
      eapply Forall_impl; [exact Hy|]. unfold key_le. intros z Hz. lia.
    + apply Z.leb_gt in E. constructor; [exact IH|].
      rewrite insert_key_perm. constructor; [unfold key_le; lia | exact Hy].
Qed.

Lemma sort_sorted (l : list A) : StronglySorted key_le (Py.sort key l).
Proof.
  induction l as [|x l IH]; simpl; [constructor|].
  now apply insert_key_sorted.
Qed.

(** Insertion puts [x] in front of every element of its own key. *)
Lemma insert_key_filter (k : Z) (x : A) (l : list A) :
  filter (fun y => key y = k) (Py.insert_key key x l)
  = filter (fun y => key y = k) (x :: l).
Proof.
  induction l as [|y l IH]; simpl; [reflexivity|].
  destruct (key x <=? key y)%Z eqn:E; [reflexivity|].
  apply Z.leb_gt in E.
  rewrite (filter_cons _ y), IH, !(filter_cons _ x), (filter_cons _ y).
  repeat case_decide; try reflexivity. lia.
Qed.

(** Stability: the elements of one key keep their relative order. *)
Lemma sort_stable (k : Z) (l : list A) :
  filter (fun y => key y = k) (Py.sort key l)
  = filter (fun y => key y = k) l.
Proof.
  induction l as [|x l IH]; simpl; [reflexivity|].
  rewrite insert_key_filter, !(filter_cons _ x), IH. reflexivity.
Qed.

(** An element whose key is minimal stays at the head. *)
Lemma sort_head (x : A) (l : list A) :
  Forall (key_le x) l -> Py.sort key (x :: l) = x :: Py.sort key l.
Proof.
  intros Hmin. simpl.
  assert (Hs : Forall (key_le x) (Py.sort key l)).
  { now rewrite sort_perm. }
  destruct (Py.sort key l) as [|y l']; [reflexivity|]. simpl.
  apply Forall_cons_1 in Hs as [Hy _]. unfold key_le in Hy.
  apply Z.leb_le in Hy. now rewrite Hy.
Qed.

End SortFacts.

(** ** The generator's floor *)

(** C9: for every mode, the fallback profile of an unrecognized mode
    included, and every value of the shared noise draw, each of the five
    band powers of the generated sample is at least 0.1. *)
Theorem generate_sample_floor (self : EEGSimulator.t)
    (mode : option EEGSimulator.MentalStateMode) (noise : Q) :
  let s := EEGSimulator.generate_sample self mode noise in
  0.1 <= EEGSimulator.delta s /\
  0.1 <= EEGSimulator.theta s /\
  0.1 <= EEGSimulator.alpha s /\
  0.1 <= EEGSimulator.beta s /\
  0.1 <= EEGSimulator.gamma s.
Proof.
  unfold EEGSimulator.generate_sample.
  destruct (EEGSimulator.profile mode noise) as [[[[d t] a] b] g]; simpl.
  repeat split; apply max_lower.
Qed.

(** ** The ratios dictionary *)

Section Ratios.

Variable band_powers : gmap string Q.
Variables d t a b g : Q.
Hypothesis Hd : band_powers !! "delta_power" = Some d.
Hypothesis Ht : band_powers !! "theta_power" = Some t.
Hypothesis Ha : band_powers !! "alpha_power" = Some a.
Hypothesis Hb : band_powers !! "beta_power" = Some b.
Hypothesis Hg : band_powers !! "gamma_power" = Some g.

(** On a non-zero total the three entries are present with the documented
    values. *)
Lemma calculate_ratios_nonzero :
  ~ Py.sum [d; t; a; b; g] == 0 ->
  exists r, SignalProcessor.calculate_ratios band_powers = Some r /\
    r !! "total_power" = Some (Py.sum [d; t; a; b; g]) /\
    r !! "beta_alpha_ratio" = Some (Py.max b 0.1 / Py.max a 0.1) /\
    r !! "theta_beta_ratio" = Some (t / Py.max b 0.1).
Proof.
  intros Hnz. unfold SignalProcessor.calculate_ratios.
  rewrite Hd, Ht, Ha, Hb, Hg. simpl.
  destruct (Qeq_bool _ 0) eqn:E.
  { apply Qeq_bool_iff in E. contradiction. }
  eexists. split; [reflexivity|]. repeat split; by simplify_map_eq.
Qed.

(** On a total of exactly zero only the two ratios are present. *)
Lemma calculate_ratios_zero :
  Py.sum [d; t; a; b; g] == 0 ->
  exists r, SignalProcessor.calculate_ratios band_powers = Some r /\
    r !! "total_power" = None /\
    r !! "beta_alpha_ratio" = Some 0 /\
    r !! "theta_beta_ratio" = Some 0.
Proof.
  intros Hz. unfold SignalProcessor.calculate_ratios.
  rewrite Hd, Ht, Ha, Hb, Hg. simpl.
  destruct (Qeq_bool _ 0) eqn:E.
  2:{ apply Qeq_bool_neq in E. contradiction. }
  eexists. split; [reflexivity|]. repeat split; by simplify_map_eq.
Qed.

End Ratios.

(** C2: on the all-zero band powers that [analyze_eeg_window] returns for an
    empty window, [calculate_ratios] returns normally with both ratios 0,
    and the returned dictionary has no [total_power] entry, which the other
    return path of the same function supplies. *)
Theorem calculate_ratios_empty_window_no_total :
  exists r,
    SignalProcessor.calculate_ratios (SignalProcessor.analyze_eeg_window [])
      = Some r /\
    r !! "beta_alpha_ratio" = Some 0 /\
    r !! "theta_beta_ratio" = Some 0 /\
    r !! "total_power" = None /\
    dom r = {[ "beta_alpha_ratio"; "theta_beta_ratio" ]}.
Proof.
  eexists. split; [reflexivity|].
  split; [by simplify_map_eq|].
  split; [by simplify_map_eq|].
  split; [by simplify_map_eq|].
  rewrite dom_insert_L, dom_singleton_L. reflexivity.
Qed.

(** ** The classifier *)

Section Classifier.

Import MentalStateClassifier.

Variable self : MentalStateClassifier.t.
Variable band_powers : gmap string Q.
Variables delta theta alpha beta gamma : Q.
Hypothesis Hdelta : band_powers !! "delta_power" = Some delta.
Hypothesis Htheta : band_powers !! "theta_power" = Some theta.
Hypothesis Halpha : band_powers !! "alpha_power" = Some alpha.
Hypothesis Hbeta : band_powers !! "beta_power" = Some beta.
Hypothesis Hgamma : band_powers !! "gamma_power" = Some gamma.

(** With the five band keys present no subscript raises. *)
Lemma classify_returns : is_Some (classify self band_powers).
Proof.
  unfold classify. rewrite Hdelta, Htheta, Halpha, Hbeta, Hgamma. simpl.
  destruct (Py.ltb _ 1.0); eexists; reflexivity.
Qed.

Lemma confidence_steps (total_power : Q) :
  let c := _calculate_confidence self total_power in
  c = 0.3 \/ c = 0.5 \/ c = 0.7 \/ c = 0.9.
Proof.
  unfold _calculate_confidence.
  destruct (Py.ltb 30 total_power); [tauto|].
  destruct (Py.ltb 20 total_power); [tauto|].
  destruct (Py.ltb 10 total_power); tauto.
Qed.

(** C3: on every band-powers mapping that carries the five band keys,
    [classify] returns a state whose three levels are integers in [0,100]
    and whose confidence is one of 0.0, 0.3, 0.5, 0.7, 0.9. *)
Theorem classify_in_range :
  exists ms, classify self band_powers = Some ms /\
    (0 <= stress_level ms <= 100)%Z /\
    (0 <= focus_level ms <= 100)%Z /\
    (0 <= sleepiness_level ms <= 100)%Z /\
    (confidence ms = 0.0 \/ confidence ms = 0.3 \/ confidence ms = 0.5 \/
     confidence ms = 0.7 \/ confidence ms = 0.9).
Proof.
  unfold classify. rewrite Hdelta, Htheta, Halpha, Hbeta, Hgamma. simpl.
  destruct (Py.ltb _ 1.0).
  - eexists. split; [reflexivity|]. simpl. repeat split; try lia. now left.
  - eexists. split; [reflexivity|]. simpl.
    split; [apply int_clamp_range|].
    split; [apply int_clamp_range|].
    split; [apply int_clamp_range|].
    right. apply confidence_steps.
Qed.

(** C4: when the five band powers sum to less than 1.0, [classify] returns
    exactly [MentalState(0, 0, 0, 0.0)]. *)
Theorem classify_low_signal :
  delta + theta + alpha + beta + gamma < 1.0 ->
  classify self band_powers =
    Some {| stress_level := 0; focus_level := 0; sleepiness_level := 0;
            confidence := 0.0 |}.
Proof.
  intros Hlow. unfold classify.
  rewrite Hdelta, Htheta, Halpha, Hbeta, Hgamma. simpl.
  apply ltb_lt in Hlow. rewrite Hlow. reflexivity.
Qed.




End Classifier.

(** ** The recommendation selector *)

Section Selector.

Import MentalStateClassifier RecommendationEngine.

Abbreviation engine := RecommendationEngine.init.

(** Every catalog entry has priority at least 1. *)
Lemma collect_priority_ge_1 (ms : MentalState) :
  Forall (fun r => (1 <= priority r)%Z) (collect engine ms).
Proof.
  unfold collect.
  repeat match goal with |- context [if ?c then _ else _] => destruct c end;
    simpl; repeat constructor; simpl; lia.
Qed.

(** Which rules fire is decided by four comparisons. *)
Lemma collect_eq (ms : MentalState) :
  collect engine ms =
    (if (60 <? stress_level ms)%Z
     then _stress_recommendations engine else [])
    ++ (if (focus_level ms <? 40)%Z
        then _focus_recommendations engine else [])
    ++ (if (70 <? sleepiness_level ms)%Z
        then _sleepiness_recommendations engine else [])
    ++ (if ((40 <=? focus_level ms)%Z && (focus_level ms <=? 70)%Z)
           && (stress_level ms <? 60)%Z && (sleepiness_level ms <? 70)%Z
        then _maintenance_recommendations engine else []).
Proof.
  unfold collect. simpl.
  repeat match goal with |- context [if ?c then _ else _] => destruct c end;
    reflexivity.
Qed.

(** Away from the two thresholds the steady-state rule works: when
    [focus_level] lies in [40,70], [stress_level] is strictly below 60 and
    [sleepiness_level] is strictly below 70, the selector returns the single
    maintenance recommendation, whose priority is 3. *)
Theorem generate_maintenance (ms : MentalState) :
  (40 <= focus_level ms <= 70)%Z ->
  (stress_level ms < 60)%Z ->
  (sleepiness_level ms < 70)%Z ->
  exists r, generate engine ms = [r] /\
    _maintenance_recommendations engine = [r] /\
    type r = MEDITATION /\ priority r = 3%Z.
Proof.
  intros [Hf1 Hf2] Hs Hsl. unfold generate. rewrite collect_eq.
  replace (60 <? stress_level ms)%Z with false by (symmetry; apply Z.ltb_ge; lia).
  replace (focus_level ms <? 40)%Z with false by (symmetry; apply Z.ltb_ge; lia).
  replace (70 <? sleepiness_level ms)%Z with false
    by (symmetry; apply Z.ltb_ge; lia).
  replace (40 <=? focus_level ms)%Z with true by (symmetry; apply Z.leb_le; lia).
  replace (focus_level ms <=? 70)%Z with true by (symmetry; apply Z.leb_le; lia).
  replace (stress_level ms <? 60)%Z with true by (symmetry; apply Z.ltb_lt; lia).
  replace (sleepiness_level ms <? 70)%Z with true
    by (symmetry; apply Z.ltb_lt; lia).
  simpl. eexists. repeat split.
Qed.

(** C10: when [focus_level] is above 70 (hence at least 40) while
    [stress_level] is at most 60 and [sleepiness_level] at most 70, no rule
    fires and the selector returns the empty list. *)
Theorem generate_empty_above_focus_band (ms : MentalState) :
  (70 < focus_level ms)%Z ->
  (40 <= focus_level ms)%Z ->
  (stress_level ms <= 60)%Z ->
  (sleepiness_level ms <= 70)%Z ->
  generate engine ms = [].
Proof.
  intros Hf Hf' Hs Hsl. unfold generate. rewrite collect_eq.
  replace (60 <? stress_level ms)%Z with false by (symmetry; apply Z.ltb_ge; lia).
  replace (focus_level ms <? 40)%Z with false by (symmetry; apply Z.ltb_ge; lia).
  replace (70 <? sleepiness_level ms)%Z with false
    by (symmetry; apply Z.ltb_ge; lia).
  replace (focus_level ms <=? 70)%Z with false by (symmetry; apply Z.leb_gt; lia).
  rewrite andb_false_r. reflexivity.
Qed.

(** C6: the selector's output is sorted non-decreasing by priority;
    recommendations of one priority appear in the order in which the rules
    collected them (stress set, focus set, sleepiness set, maintenance, each
    in catalog order); and when [stress_level] exceeds 60 the first two
    entries are the 10 Hz binaural-beats recommendation and the breathing
    exercise, both of priority 1. *)
Theorem generate_sorted_stable (ms : MentalState) :
  let out := generate engine ms in
  StronglySorted (fun r1 r2 => (priority r1 <= priority r2)%Z) out /\
  (forall p : Z,
     filter (fun r => priority r = p) out
     = filter (fun r => priority r = p)
         ((if (60 <? stress_level ms)%Z
           then _stress_recommendations engine else [])
          ++ (if (focus_level ms <? 40)%Z
              then _focus_recommendations engine else [])
          ++ (if (70 <? sleepiness_level ms)%Z
              then _sleepiness_recommendations engine else [])
          ++ (if ((40 <=? focus_level ms)%Z && (focus_level ms <=? 70)%Z)
                 && (stress_level ms <? 60)%Z
                 && (sleepiness_level ms <? 70)%Z
              then _maintenance_recommendations engine else []))) /\
  ((60 < stress_level ms)%Z ->
   exists r1 r2 rest,
     out = r1 :: r2 :: rest /\
     [r1; r2] = take 2 (_stress_recommendations engine) /\
     type r1 = BINAURAL_BEATS /\ frequency_hz r1 = Some 10.0 /\
     priority r1 = 1%Z /\
     type r2 = BREATHING /\ priority r2 = 1%Z).
Proof.
  split; [|split].
  - apply (sort_sorted priority).
  - intros p. unfold generate. rewrite sort_stable, collect_eq. reflexivity.
  - intros Hs. unfold generate.
    pose proof (collect_priority_ge_1 ms) as Hge. revert Hge.
    rewrite collect_eq.
    replace (60 <? stress_level ms)%Z with true
      by (symmetry; apply Z.ltb_lt; lia).
    match goal with
    | |- context [_stress_recommendations engine ++ ?l] =>
        generalize l; intros others
    end.
    intros Hge. apply Forall_app in Hge as [_ Hge].
    assert (Hmin : forall r, (priority r = 1)%Z ->
                     Forall (key_le priority r) others).
    { intros r Hr. eapply Forall_impl; [exact Hge|].
      unfold key_le. intros r' Hr'. simpl in Hr'. lia. }
    destruct (_stress_recommendations engine) as [|r1 [|r2 stress_rest]] eqn:E;
      [discriminate | discriminate |].
    injection E as <- <- <-.
    do 2 eexists. eexists. split; [|repeat split].
    simpl app. rewrite sort_head.
    2:{ constructor; [unfold key_le; simpl; lia|].
        constructor; [unfold key_le; simpl; lia|].
        now apply Hmin. }
    rewrite sort_head.
    2:{ constructor; [unfold key_le; simpl; lia|]. now apply Hmin. }
    reflexivity.
Qed.

End Selector.

(** C1: the steady-state rule misses the two thresholds.  With
    [focus_level] inside [40,70], a state whose [stress_level] is exactly 60,
    or whose [sleepiness_level] is exactly 70, raises no alarm (the alarms
    need [> 60] and [> 70]) and yet gets no maintenance recommendation
    either: the selector returns the empty list.  One step below the
    threshold the maintenance recommendation is returned, one step above it
    the alarm set, and at the two ends 40 and 70 of the focus band, which
    the same test compares with [<=], the maintenance recommendation is
    returned. *)
Theorem generate_threshold_gap :
  let state (stress focus sleepiness : Z) :=
    {| MentalStateClassifier.stress_level := stress;
       MentalStateClassifier.focus_level := focus;
       MentalStateClassifier.sleepiness_level := sleepiness;
       MentalStateClassifier.confidence := 0.9 |} in
  let engine := RecommendationEngine.init in
  let generate := RecommendationEngine.generate engine in
  let maintenance := RecommendationEngine._maintenance_recommendations engine in
  generate (state 60%Z 50%Z 30%Z) = [] /\
  generate (state 30%Z 50%Z 70%Z) = [] /\
  generate (state 59%Z 50%Z 30%Z) = maintenance /\
  generate (state 30%Z 50%Z 69%Z) = maintenance /\
  generate (state 61%Z 50%Z 30%Z)
  = RecommendationEngine._stress_recommendations engine /\
  generate (state 30%Z 50%Z 71%Z)
  = RecommendationEngine._sleepiness_recommendations engine /\
  generate (state 30%Z 40%Z 30%Z) = maintenance /\
  generate (state 30%Z 70%Z 30%Z) = maintenance.
Proof. cbv zeta. repeat split. Qed.

(** ** The streaming loop *)

Section Streaming.

Import EEGSimulator App.

Lemma last_n_length {A} (n : nat) (l : list A) :
  (n <= length l)%nat -> length (Py.last_n n l) = n.
Proof. intros Hn. unfold Py.last_n. rewrite length_drop. lia. Qed.

Lemma last_n_suffix {A} (n : nat) (l : list A) :
  take (length l - n) l ++ Py.last_n n l = l.
Proof. apply take_drop. Qed.

(** Both return paths of [analyze_eeg_window] carry the five band keys, so
    the classifier never raises inside the loop. *)
Lemma analyze_then_classify (samples : list EEGSample) :
  is_Some (MentalStateClassifier.classify classifier
             (SignalProcessor.analyze_eeg_window samples)).
Proof.
  unfold SignalProcessor.analyze_eeg_window.
  destruct (last samples); eapply classify_returns; by simplify_map_eq.
Qed.

(** [stream_samples] yields [int(sampling_rate * duration_seconds)]
    samples. *)
Lemma stream_loop_length (count : nat) (self : EEGSimulator.t)
    (mode : option MentalStateMode) (noise : nat -> Q) :
  length (stream_loop count self mode noise).1 = count.
Proof.
  revert self noise. induction count as [|count IH]; intros self noise;
    simpl; [reflexivity|].
  specialize (IH {| sampling_rate := sampling_rate self;
                    time := time self + 1.0 / inject_Z (sampling_rate self);
                    EEGSimulator.current_mode :=
                      EEGSimulator.current_mode self |}
                 (fun k => noise (S k))).
  destruct (stream_loop count _ mode _) as [rest self'']. simpl in *. lia.
Qed.

(** C7: when a streaming pass finds at least 512 samples buffered, it
    analyses a window and emits its packet, and the buffer it leaves is
    exactly the most recent 256 samples; the ready test is then false, and
    stays false until at least 256 further samples have been pushed. *)
Theorem stream_iteration_hop (g : Globals) (now : string) (noise : nat -> Q) :
  is_streaming g = true ->
  let buffered :=
    eeg_buffer g
    ++ (stream_samples (simulator g) (Some (current_mode g)) 0.25 noise).1 in
  window_ready buffered = true ->
  let '(g', emitted, _) := stream_iteration g now noise in
  (exists packet, emitted = [emit_packet "eeg_update" packet]) /\
  eeg_buffer g' = Py.last_n 256 buffered /\
  (exists older, buffered = older ++ eeg_buffer g') /\
  length (eeg_buffer g') = 256%nat /\
  window_ready (eeg_buffer g') = false /\
  (forall more : list EEGSample,
     window_ready (eeg_buffer g' ++ more) = true ->
     (256 <= length more)%nat).
Proof.
  intros Hon buffered Hready. unfold stream_iteration. rewrite Hon. simpl negb.
  cbv iota. subst buffered.
  destruct (stream_samples _ _ 0.25 noise) as [samples simulator'].
  simpl fst in Hready. simpl fst. rewrite Hready.
  destruct (analyze_then_classify (Py.last_n 512 (eeg_buffer g ++ samples)))
    as [mental_state ->].
  simpl eeg_buffer.
  assert (Hlen : length (Py.last_n 256 (eeg_buffer g ++ samples)) = 256%nat).
  { apply last_n_length. unfold window_ready in Hready.
    apply Nat.leb_le in Hready. lia. }
  split; [eexists; reflexivity|].
  split; [reflexivity|].
  split; [eexists; symmetry; apply last_n_suffix|].
  split; [exact Hlen|].
  split.
  - unfold window_ready. rewrite Hlen. reflexivity.
  - intros more. unfold window_ready. rewrite length_app, Hlen.
    intros H. apply Nat.leb_le in H. lia.
Qed.

End Streaming.

(** ** The mode-change command *)

Section ModeChange.

Import EEGSimulator App.

Lemma mode_map_value (mode : MentalStateMode) :
  mode_map !! value mode = Some mode.
Proof. destruct mode; reflexivity. Qed.

Lemma mode_map_names (name : string) (mode : MentalStateMode) :
  mode_map !! name = Some mode -> name = value mode.
Proof.
  unfold mode_map. intros H.
  repeat (apply lookup_insert_Some in H as [[<- <-]|[_ H]]; [reflexivity|]).
  apply lookup_singleton_Some in H as [<- <-]. reflexivity.
Qed.

(** C8: a mode name outside relaxed, focused, stressed, sleepy makes the
    handler emit the [error] event to the caller only and leaves every
    global, the active mode and the streaming flag among them, as it was;
    the name of a mode sets the active mode to that mode, touches nothing
    else, and broadcasts [mode_changed]. *)
Theorem handle_mode_change_spec (g : Globals) (data : gmap string string)
    (name : string) :
  data !! "mode" = Some name ->
  (name ∉ ["relaxed"; "focused"; "stressed"; "sleepy"] ->
   handle_mode_change g data
   = (g, [emit "error" {[ "message" := "Geçersiz mod" ]} false]))
  /\
  (forall mode : MentalStateMode, name = value mode ->
   exists payload,
     handle_mode_change g data
     = ({| simulator := simulator g;
           eeg_buffer := eeg_buffer g;
           session_data := session_data g;
           current_mode := mode;
           is_streaming := is_streaming g |},
        [emit "mode_changed" payload true])
     /\ payload !! "mode" = Some name).
Proof.
  intros Hname. unfold handle_mode_change. rewrite Hname. simpl default.
  split.
  - intros Hout. destruct (mode_map !! name) as [mode|] eqn:E; [|reflexivity].
    apply mode_map_names in E. subst name. exfalso. apply Hout.
    destruct mode; simpl; set_solver.
  - intros mode ->. rewrite mode_map_value. eexists. split; [reflexivity|].
    simpl. by simplify_map_eq.
Qed.

End ModeChange.

(** ** Concrete runs *)

Section Runs.

Import MentalStateClassifier RecommendationEngine App Scenarios.

Example classify_stressed :
  classify MentalStateClassifier.init stressed_powers
  = Some {| stress_level := 65; focus_level := 100; sleepiness_level := 18;
            confidence := 0.9 |}.
Proof. reflexivity. Qed.

Example generate_high_stress_priorities :
  map priority (generate RecommendationEngine.init high_stress)
  = [1; 1; 2]%Z.
Proof. reflexivity. Qed.

Example generate_all_rules_priorities :
  map (fun r => (priority r, duration_minutes r))
    (generate RecommendationEngine.init
       {| stress_level := 90; focus_level := 10; sleepiness_level := 90;
          confidence := 0.5 |})
  = [(1, 10); (1, 5); (1, 15); (1, 10); (2, 10); (2, 5); (2, 10); (2, 3)]%Z.
Proof. reflexivity. Qed.

(** Scenario 1 of the design: a full STRESSED window is classified with
    stress above 60 and the pass stores one packet and keeps 256 samples. *)
Example stream_iteration_stressed :
  let '(g', emitted, pause) :=
    stream_iteration nearly_full "2026-01-01T00:00:00" (fun _ => 0) in
  map packet_mental_state (session_data g')
  = [ {| stress_level := 65; focus_level := 100; sleepiness_level := 18;
         confidence := 0.9 |} ]
  /\ map (fun p => map priority (packet_recommendations p)) (session_data g')
     = [ [1; 1; 2]%Z ]
  /\ length emitted = 1%nat
  /\ length (eeg_buffer g') = 256%nat
  /\ pause = 0.25.
Proof. vm_compute. repeat split. Qed.

Lemma generate_maintenance_witness :
  exists r, generate RecommendationEngine.init normal_state = [r] /\
    _maintenance_recommendations RecommendationEngine.init = [r] /\
    type r = MEDITATION /\ priority r = 3%Z.
Proof. apply generate_maintenance; simpl; lia. Defined.

Lemma generate_empty_above_focus_band_witness :
  exists ms : MentalState,
    (0 <= stress_level ms <= 100)%Z /\
    (0 <= focus_level ms <= 100)%Z /\
    (0 <= sleepiness_level ms <= 100)%Z /\
    generate RecommendationEngine.init ms = [].
Proof.
  exists deep_focus.
  split; [simpl; lia|]. split; [simpl; lia|]. split; [simpl; lia|].
  apply generate_empty_above_focus_band; simpl; lia.
Defined.

Lemma classify_in_range_witness :
  exists ms, classify MentalStateClassifier.init stressed_powers = Some ms /\
    (0 <= stress_level ms <= 100)%Z /\
    (0 <= focus_level ms <= 100)%Z /\
    (0 <= sleepiness_level ms <= 100)%Z /\
    (confidence ms = 0.0 \/ confidence ms = 0.3 \/ confidence ms = 0.5 \/
     confidence ms = 0.7 \/ confidence ms = 0.9).
Proof.
  apply (classify_in_range MentalStateClassifier.init stressed_powers
           4 6 4 20 12); reflexivity.
Defined.

Lemma classify_low_signal_witness :
  classify MentalStateClassifier.init weak_powers
  = Some {| stress_level := 0; focus_level := 0; sleepiness_level := 0;
            confidence := 0.0 |}.
Proof.
  apply (classify_low_signal MentalStateClassifier.init weak_powers
           0.1 0.1 0.1 0.1 0.1); reflexivity.
Defined.


Lemma generate_sorted_stable_witness :
  exists r1 r2 rest,
    generate RecommendationEngine.init high_stress = r1 :: r2 :: rest /\
    [r1; r2] = take 2 (_stress_recommendations RecommendationEngine.init) /\
    type r1 = BINAURAL_BEATS /\ frequency_hz r1 = Some 10.0 /\
    priority r1 = 1%Z /\
    type r2 = BREATHING /\ priority r2 = 1%Z.
Proof.
  apply (proj2 (proj2 (generate_sorted_stable high_stress))). simpl. lia.
Defined.

Lemma handle_mode_change_spec_witness :
  handle_mode_change App.initial {[ "mode" := "invalid" ]}
  = (App.initial, [emit "error" {[ "message" := "Geçersiz mod" ]} false]).
Proof.
  apply (handle_mode_change_spec App.initial {[ "mode" := "invalid" ]}
           "invalid"); [reflexivity|].
  rewrite !not_elem_of_cons. repeat split; try discriminate.
  apply not_elem_of_nil.
Defined.

Lemma stream_iteration_hop_witness :
  let buffered :=
    eeg_buffer nearly_full
    ++ (EEGSimulator.stream_samples (simulator nearly_full)
          (Some (current_mode nearly_full)) 0.25 (fun _ => 0)).1 in
  let '(g', emitted, _) :=
    stream_iteration nearly_full "2026-01-01T00:00:00" (fun _ => 0) in
  (exists packet, emitted = [emit_packet "eeg_update" packet]) /\
  eeg_buffer g' = Py.last_n 256 buffered /\
  (exists older, buffered = older ++ eeg_buffer g') /\
  length (eeg_buffer g') = 256%nat /\
  window_ready (eeg_buffer g') = false /\
  (forall more : list EEGSimulator.EEGSample,
     window_ready (eeg_buffer g' ++ more) = true ->
     (256 <= length more)%nat).
Proof.
  apply (stream_iteration_hop nearly_full "2026-01-01T00:00:00" (fun _ => 0)).
  - reflexivity.
  - vm_compute. reflexivity.
Defined.

End Runs.

(** * Further properties of the modules *)

(** ** The sample stream *)

Section Stream.

Import EEGSimulator.

(** One step of the time counter. *)
Lemma stream_loop_spec (count : nat) (self : EEGSimulator.t)
    (mode : option MentalStateMode) (noise : nat -> Q) :
  let '(samples, self') := stream_loop count self mode noise in
  length samples = count /\
  sampling_rate self' = sampling_rate self /\
  EEGSimulator.current_mode self' = EEGSimulator.current_mode self /\
  time self' ==
    time self
    + inject_Z (Z.of_nat count) * (1.0 / inject_Z (sampling_rate self)) /\
  (forall (k : nat) (s : EEGSample), samples !! k = Some s ->
     timestamp s ==
       time self
       + inject_Z (Z.of_nat k) * (1.0 / inject_Z (sampling_rate self))) /\
  Forall (fun s => Forall (fun x => 0.1 <= x) (bands s)) samples.
Proof.
  revert self noise. induction count as [|count IH]; intros self noise.
  - simpl. repeat split; try reflexivity.
    + ring.
    + intros k s Hk. discriminate.
    + constructor.
  - cbn [stream_loop].
    specialize (IH {| sampling_rate := sampling_rate self;
                      time := time self + 1.0 / inject_Z (sampling_rate self);
                      EEGSimulator.current_mode :=
                        EEGSimulator.current_mode self |}
                   (fun k => noise (S k))).
    destruct (stream_loop count _ mode _) as [rest self''].
    cbn [time sampling_rate EEGSimulator.current_mode] in IH.
    destruct IH as (Hlen & Hrate & Hmode & Htime & Hstamp & Hfloor).
    split; [simpl; congruence|].
    split; [exact Hrate|]. split; [exact Hmode|].
    split; [|split].
    + rewrite Htime, Nat2Z.inj_succ, <- Z.add_1_r, inject_Z_plus. ring.
    + intros [|k] s Hk.
      * injection Hk as <-. unfold generate_sample.
        destruct (profile mode (noise 0%nat)) as [[[[d t] a] b] g]. simpl. ring.
      * simpl in Hk. rewrite (Hstamp k s Hk).
        rewrite Nat2Z.inj_succ, <- Z.add_1_r, inject_Z_plus. ring.
    + constructor; [|exact Hfloor]. unfold generate_sample.
      destruct (profile mode (noise 0%nat)) as [[[[d t] a] b] g].
      unfold bands. simpl. repeat constructor; apply max_lower.
Qed.

(** X1: at the 256 Hz of the application, with the clock on a multiple of
    the sampling period, a stream over [duration_seconds] yields exactly
    [int(256 * duration_seconds)] samples (none when that is negative),
    keeps the sampling rate and the stored mode, and leaves the clock that
    many periods further.  The period 1/256 is a power of two, so each step
    of the clock is exact. *)
Theorem stream_samples_advance (self : EEGSimulator.t)
    (mode : option MentalStateMode) (duration_seconds : Q)
    (noise : nat -> Q) (ticks : nat) :
  sampling_rate self = 256%Z ->
  time self == inject_Z (Z.of_nat ticks) / 256 ->
  let count := Z.to_nat (Py.int (256 * duration_seconds)) in
  let '(samples, self') := stream_samples self mode duration_seconds noise in
  length samples = count /\
  sampling_rate self' = 256%Z /\
  EEGSimulator.current_mode self' = EEGSimulator.current_mode self /\
  time self' == inject_Z (Z.of_nat (ticks + count)) / 256.
Proof.
  intros Hrate Htime count. unfold stream_samples. rewrite Hrate.
  change (inject_Z 256) with 256. fold count.
  pose proof (stream_loop_spec count self mode noise) as H.
  destruct (stream_loop count self mode noise) as [samples self'].
  destruct H as (H1 & H2 & H3 & H4 & _).
  split; [exact H1|]. split; [congruence|]. split; [exact H3|].
  rewrite H4, Htime, Hrate, Nat2Z.inj_add, inject_Z_plus.
  change (inject_Z 256) with 256. field.
Qed.

(** X2: with a positive sampling rate the timestamps of a stream are
    strictly increasing. *)
Theorem stream_samples_timestamps_increase (self : EEGSimulator.t)
    (mode : option MentalStateMode) (duration_seconds : Q)
    (noise : nat -> Q) (i j : nat) (si sj : EEGSample) :
  (0 < sampling_rate self)%Z ->
  (i < j)%nat ->
  (stream_samples self mode duration_seconds noise).1 !! i = Some si ->
  (stream_samples self mode duration_seconds noise).1 !! j = Some sj ->
  timestamp si < timestamp sj.
Proof.
  intros Hrate Hij. unfold stream_samples.
  set (count := Z.to_nat _).
  pose proof (stream_loop_spec count self mode noise) as H.
  destruct (stream_loop count self mode noise) as [samples self'].
  destruct H as (_ & _ & _ & _ & Hstamp & _). simpl.
  intros Hi Hj. rewrite (Hstamp i si Hi), (Hstamp j sj Hj).
  assert (Hperiod : 0 < 1.0 / inject_Z (sampling_rate self)).
  { apply Qlt_shift_div_l; [|reflexivity].
    change 0 with (inject_Z 0). rewrite <- Zlt_Qlt. exact Hrate. }
  assert (Hk : inject_Z (Z.of_nat i) < inject_Z (Z.of_nat j)).
  { rewrite <- Zlt_Qlt. lia. }
  apply Qplus_lt_r. apply Qmult_lt_compat_r; assumption.
Qed.

(** X3: every sample of a stream, whatever the mode argument and the noise
    draws, has all five bands at least 0.1. *)
Theorem stream_samples_floor (self : EEGSimulator.t)
    (mode : option MentalStateMode) (duration_seconds : Q)
    (noise : nat -> Q) :
  Forall (fun s => Forall (fun x => 0.1 <= x) (bands s))
    (stream_samples self mode duration_seconds noise).1.
Proof.
  unfold stream_samples. set (count := Z.to_nat _).
  pose proof (stream_loop_spec count self mode noise) as H.
  destruct (stream_loop count self mode noise) as [samples self'].
  destruct H as (_ & _ & _ & _ & _ & Hfloor). exact Hfloor.
Qed.

(** X4: the floor leaves the signal alone as long as the noise draw is at
    least -0.8: every band is then its base value plus the noise.  (The
    smallest base value is 1, so the smallest band is then at least 0.2.) *)
Theorem generate_sample_unfloored (self : EEGSimulator.t)
    (mode : option MentalStateMode) (noise : Q) :
  -0.8 <= noise ->
  let '(d, t, a, b, g) := profile mode noise in
  let s := generate_sample self mode noise in
  delta s == d /\ theta s == t /\ alpha s == a /\ beta s == b /\
  gamma s == g.
Proof.
  intros Hnoise. unfold generate_sample.
  assert (Hmax : forall x, 0.1 <= x -> Py.max 0.1 x == x).
  { intros x Hx. destruct (max_cases 0.1 x) as [[_ ->]|[Hle ->]];
      [reflexivity | lra]. }
  destruct mode as [[| | |]|]; simpl; repeat split; apply Hmax; lra.
Qed.

End Stream.

(** ** The window aggregator *)

Section Aggregator.

Import EEGSimulator SignalProcessor.

Lemma sum_acc (l : list Q) (a : Q) : fold_left Qplus l a == a + Py.sum l.
Proof.
  unfold Py.sum. revert a. induction l as [|x l IH]; intros a; simpl.
  - ring.
  - rewrite (IH (a + x)), (IH (0 + x)). ring.
Qed.

Lemma sum_cons (x : Q) (l : list Q) : Py.sum (x :: l) == x + Py.sum l.
Proof.
  unfold Py.sum at 1. cbn [fold_left]. rewrite sum_acc. ring.
Qed.

Lemma sum_bounds (lo hi : Q) (l : list Q) :
  Forall (fun x => lo <= x /\ x <= hi) l ->
  lo * inject_Z (Z.of_nat (length l)) <= Py.sum l /\
  Py.sum l <= hi * inject_Z (Z.of_nat (length l)).
Proof.
  induction 1 as [|x l [Hlo Hhi] _ [IHlo IHhi]].
  - change (Py.sum []) with 0. change (inject_Z (Z.of_nat (length []))) with 0.
    lra.
  - rewrite sum_cons. cbn [length].
    rewrite Nat2Z.inj_succ, <- Z.add_1_r, inject_Z_plus.
    change (inject_Z 1) with 1. lra.
Qed.

(** The mean of a non-empty list lies between any bounds of its elements. *)
Lemma np_mean_bounds (lo hi : Q) (l : list Q) :
  l <> [] ->
  Forall (fun x => lo <= x /\ x <= hi) l ->
  lo <= np_mean l /\ np_mean l <= hi.
Proof.
  intros Hne Hall. destruct (sum_bounds lo hi l Hall) as [Hlo Hhi].
  assert (Hlen : 0 < inject_Z (Z.of_nat (length l))).
  { change 0 with (inject_Z 0). rewrite <- Zlt_Qlt.
    destruct l; [contradiction | simpl; lia]. }
  unfold np_mean. split.
  - apply Qle_shift_div_l; assumption.
  - apply Qle_shift_div_r; assumption.
Qed.

(** The five band lookups of an analysed non-empty window. *)
Lemma analyze_lookups (samples : list EEGSample) :
  samples <> [] ->
  let r := analyze_eeg_window samples in
  r !! "delta_power" = Some (np_mean (map delta samples)) /\
  r !! "theta_power" = Some (np_mean (map theta samples)) /\
  r !! "alpha_power" = Some (np_mean (map alpha samples)) /\
  r !! "beta_power" = Some (np_mean (map beta samples)) /\
  r !! "gamma_power" = Some (np_mean (map gamma samples)).
Proof.
  intros Hne. unfold analyze_eeg_window.
  destruct (last samples) as [final|] eqn:E.
  - repeat split; by simplify_map_eq.
  - apply last_None in E. contradiction.
Qed.

Lemma within_band (lo hi : Q) (band : EEGSample -> Q)
    (samples : list EEGSample) :
  (forall s, In (band s) (bands s)) ->
  Forall (within lo hi) samples ->
  Forall (fun x => lo <= x /\ x <= hi) (map band samples).
Proof.
  intros Hband Hall. apply Forall_map. eapply Forall_impl; [exact Hall|].
  intros s Hs. unfold within in Hs. rewrite Forall_forall in Hs.
  apply Hs, list_elem_of_In, Hband.
Qed.

(** X6: for every window, empty or not, the analysed result has exactly
    the five band keys and [timestamp]; on a non-empty window the timestamp
    is that of the last sample, on the empty one it is 0.0. *)
Theorem analyze_eeg_window_keys (samples : list EEGSample) :
  dom (analyze_eeg_window samples)
  = list_to_set ("timestamp" :: band_keys) /\
  analyze_eeg_window samples !! "timestamp"
  = Some (match last samples with
          | Some final => timestamp final
          | None => 0.0
          end).
Proof.
  unfold analyze_eeg_window, _empty_result.
  destruct (last samples) as [final|]; (split; [|by simplify_map_eq]);
    rewrite !dom_insert_L, dom_singleton_L; simpl; set_solver.
Qed.

(** X7: on a non-empty window whose samples have every band between the
    generator's floor 0.1 and 100, [calculate_ratios] of the analysed window
    returns the three entries: the total is at least 0.4 and both ratios are
    strictly positive, so the zero-total return path is not taken. *)
Theorem calculate_ratios_of_floored_window (samples : list EEGSample) :
  samples <> [] ->
  Forall (within 0.1 100) samples ->
  exists r total beta_alpha theta_beta,
    calculate_ratios (analyze_eeg_window samples) = Some r /\
    r !! "total_power" = Some total /\ 0.4 <= total /\
    r !! "beta_alpha_ratio" = Some beta_alpha /\ 0 < beta_alpha /\
    r !! "theta_beta_ratio" = Some theta_beta /\ 0 < theta_beta.
Proof.
  intros Hne Hwithin.
  assert (Hfloor : Forall (fun s => Forall (fun x => 0.1 <= x) (bands s))
                     samples).
  { eapply Forall_impl; [exact Hwithin|]. intros s Hs. unfold within in Hs.
    eapply Forall_impl; [exact Hs|]. simpl. tauto. }
  destruct (analyze_lookups samples Hne) as (Hd & Ht & Ha & Hb & Hg).
  assert (Hmean : forall band, (forall s, In (band s) (bands s)) ->
            0.1 <= np_mean (map band samples)).
  { intros band Hband.
    assert (Hlen : 0 < inject_Z (Z.of_nat (length (map band samples)))).
    { change 0 with (inject_Z 0). rewrite <- Zlt_Qlt.
      destruct samples; [contradiction | simpl; lia]. }
    assert (Hsum : 0.1 * inject_Z (Z.of_nat (length (map band samples)))
                   <= Py.sum (map band samples)).
    { clear Hlen Hne Hd Ht Ha Hb Hg Hwithin.
      induction Hfloor as [|s l Hs _ IH].
      - change (Py.sum (map band [])) with 0.
        change (inject_Z (Z.of_nat (length (map band [])))) with 0. lra.
      - cbn [map length]. rewrite sum_cons.
        rewrite Nat2Z.inj_succ, <- Z.add_1_r, inject_Z_plus.
        change (inject_Z 1) with 1.
        assert (0.1 <= band s).
        { rewrite Forall_forall in Hs. apply Hs, list_elem_of_In, Hband. }
        lra. }
    unfold np_mean. apply Qle_shift_div_l; assumption. }
  pose proof (Hmean delta ltac:(intros s; simpl; tauto)) as Bd.
  pose proof (Hmean theta ltac:(intros s; simpl; tauto)) as Bt.
  pose proof (Hmean alpha ltac:(intros s; simpl; tauto)) as Ba.
  pose proof (Hmean beta ltac:(intros s; simpl; tauto)) as Bb.
  pose proof (Hmean gamma ltac:(intros s; simpl; tauto)) as Bg.
  unfold calculate_ratios. rewrite Hd, Ht, Ha, Hb, Hg. simpl.
  set (d := np_mean (map delta samples)) in *.
  set (t := np_mean (map theta samples)) in *.
  set (a := np_mean (map alpha samples)) in *.
  set (b := np_mean (map beta samples)) in *.
  set (g := np_mean (map gamma samples)) in *.
  assert (Htotal : Py.sum [d; t; a; b; g] == d + t + a + b + g).
  { unfold Py.sum. simpl. ring. }
  destruct (Qeq_bool _ 0) eqn:E.
  { apply Qeq_bool_iff in E. rewrite Htotal in E. lra. }
  assert (Hfa : 0.1 <= Py.max a 0.1).
  { destruct (max_cases a 0.1) as [[_ ->]|[_ ->]]; lra. }
  assert (Hfb : 0.1 <= Py.max b 0.1).
  { destruct (max_cases b 0.1) as [[_ ->]|[_ ->]]; lra. }
  do 4 eexists.
  split; [reflexivity|].
  split; [by simplify_map_eq|]. split; [rewrite Htotal; lra|].
  split; [by simplify_map_eq|].
  split; [apply Qlt_shift_div_l; lra|].
  split; [by simplify_map_eq|].
  apply Qlt_shift_div_l; lra.
Qed.

(** X8: [calculate_ratios] raises exactly when one of the five band keys is
    missing from its argument. *)
Theorem calculate_ratios_raises_iff (band_powers : gmap string Q) :
  calculate_ratios band_powers = None
  <-> exists key, key ∈ band_keys /\ band_powers !! key = None.
Proof.
  unfold calculate_ratios, band_keys. split.
  - intros H.
    destruct (band_powers !! "delta_power") eqn:Ed;
      [|exists "delta_power"; split; [set_solver | exact Ed]].
    destruct (band_powers !! "theta_power") eqn:Et;
      [|exists "theta_power"; split; [set_solver | exact Et]].
    destruct (band_powers !! "alpha_power") eqn:Ea;
      [|exists "alpha_power"; split; [set_solver | exact Ea]].
    destruct (band_powers !! "beta_power") eqn:Eb;
      [|exists "beta_power"; split; [set_solver | exact Eb]].
    destruct (band_powers !! "gamma_power") eqn:Eg;
      [|exists "gamma_power"; split; [set_solver | exact Eg]].
    simpl in H. destruct (Qeq_bool _ 0); discriminate.
  - intros (key & Hkey & Hnone).
    repeat (apply elem_of_cons in Hkey as [->|Hkey]);
      [| | | | |by apply elem_of_nil in Hkey]; rewrite Hnone;
      repeat (simpl; try reflexivity;
              match goal with
              | |- context [?m !! ?k] => destruct (m !! k)
              end).
Qed.

End Aggregator.

(** ** More on the classifier *)

Section ClassifierMore.

Import MentalStateClassifier.

Variable self : MentalStateClassifier.t.

(** A bound on the clamped argument bounds the level. *)
Lemma int_clamp_le (x : Q) (n : Z) :
  (0 <= n)%Z -> x <= inject_Z n ->
  (Py.int (Py.min 100 (Py.max 0 x)) <= n)%Z.
Proof.
  intros Hn Hx.
  assert (Hlo : 0 <= Py.min 100 (Py.max 0 x)).
  { apply min_lower; [discriminate | apply max_lower]. }
  rewrite int_floor by exact Hlo. rewrite <- (Qfloor_Z n).
  apply Qfloor_resp_le.
  assert (H0 : 0 <= inject_Z n).
  { change 0 with (inject_Z 0). rewrite <- Zle_Qle. exact Hn. }
  destruct (min_cases 100 (Py.max 0 x)) as [[_ ->]|[Hle ->]];
    destruct (max_cases 0 x) as [[Hpos E]|[Hneg E]]; rewrite E in *; lra.
Qed.

(** X9: [classify] raises exactly when one of the five band keys is missing
    from its argument; the [timestamp] entry is never read. *)
Theorem classify_raises_iff (band_powers : gmap string Q) :
  classify self band_powers = None
  <-> exists key, key ∈ band_keys /\ band_powers !! key = None.
Proof.
  unfold classify, band_keys. split.
  - intros H.
    destruct (band_powers !! "delta_power") eqn:Ed;
      [|exists "delta_power"; split; [set_solver | exact Ed]].
    destruct (band_powers !! "theta_power") eqn:Et;
      [|exists "theta_power"; split; [set_solver | exact Et]].
    destruct (band_powers !! "alpha_power") eqn:Ea;
      [|exists "alpha_power"; split; [set_solver | exact Ea]].
    destruct (band_powers !! "beta_power") eqn:Eb;
      [|exists "beta_power"; split; [set_solver | exact Eb]].
    destruct (band_powers !! "gamma_power") eqn:Eg;
      [|exists "gamma_power"; split; [set_solver | exact Eg]].
    simpl in H. destruct (Py.ltb _ 1.0); discriminate.
  - intros (key & Hkey & Hnone).
    repeat (apply elem_of_cons in Hkey as [->|Hkey]);
      [| | | | |by apply elem_of_nil in Hkey]; rewrite Hnone;
      repeat (simpl; try reflexivity;
              match goal with
              | |- context [?m !! ?k] => destruct (m !! k)
              end).
Qed.

(** X10: the confidence step function never decreases when the total power
    grows. *)
Theorem calculate_confidence_monotone (total1 total2 : Q) :
  total1 <= total2 ->
  _calculate_confidence self total1 <= _calculate_confidence self total2.
Proof.
  intros Hle. unfold _calculate_confidence.
  destruct (Py.ltb 30 total1) eqn:A1; destruct (Py.ltb 20 total1) eqn:B1;
    destruct (Py.ltb 10 total1) eqn:C1;
    destruct (Py.ltb 30 total2) eqn:A2; destruct (Py.ltb 20 total2) eqn:B2;
    destruct (Py.ltb 10 total2) eqn:C2;
    try discriminate;
    repeat match goal with
           | H : Py.ltb _ _ = true |- _ => apply ltb_lt in H
           | H : Py.ltb _ _ = false |- _ => apply ltb_ge in H
           end; lra.
Qed.

Section Keys.

Variable band_powers : gmap string Q.
Variables delta theta alpha beta gamma : Q.
Hypothesis Hdelta : band_powers !! "delta_power" = Some delta.
Hypothesis Htheta : band_powers !! "theta_power" = Some theta.
Hypothesis Halpha : band_powers !! "alpha_power" = Some alpha.
Hypothesis Hbeta : band_powers !! "beta_power" = Some beta.
Hypothesis Hgamma : band_powers !! "gamma_power" = Some gamma.

Let total := delta + theta + alpha + beta + gamma.

(** X11: the returned confidence is zero exactly on the low-signal path,
    i.e. when the total power is below 1.0; every analysed window gets a
    confidence of at least 0.3. *)
Theorem classify_confidence_zero_iff :
  exists ms, classify self band_powers = Some ms /\
    (confidence ms == 0 <-> total < 1.0) /\
    (1.0 <= total -> 0.3 <= confidence ms).
Proof.
  unfold classify. rewrite Hdelta, Htheta, Halpha, Hbeta, Hgamma. simpl.
  fold total. destruct (Py.ltb total 1.0) eqn:E.
  - apply ltb_lt in E. eexists. split; [reflexivity|]. simpl. split.
    + split; [intros _; exact E | intros _; reflexivity].
    + intros H. lra.
  - apply ltb_ge in E. eexists. split; [reflexivity|]. simpl.
    assert (H : 0.3 <= _calculate_confidence self total).
    { unfold _calculate_confidence.
      destruct (Py.ltb 30 total); [discriminate|].
      destruct (Py.ltb 20 total); [discriminate|].
      destruct (Py.ltb 10 total); discriminate. }
    split; [|intros _; exact H].
    split; [intros H0; lra | intros Hlt; lra].
Qed.

(** X12: when [alpha_power] is not negative and the window is analysed
    (total at least 1.0), the stress level is at most 72: the three
    contributions are capped at 100, 50 and 30 and their sum is divided by
    2.5. *)
Theorem classify_stress_at_most_72 :
  0 <= alpha -> 1.0 <= total ->
  exists ms, classify self band_powers = Some ms /\
    (stress_level ms <= 72)%Z.
Proof.
  intros Hnn Htotal. unfold classify.
  rewrite Hdelta, Htheta, Halpha, Hbeta, Hgamma. simpl. fold total.
  apply ltb_ge in Htotal as Hb. rewrite Hb.
  eexists. split; [reflexivity|]. simpl. unfold _calculate_stress.
  apply int_clamp_le; [lia|].
  assert (Hq : 0 <= alpha / total).
  { apply Qle_shift_div_l; lra. }
  set (q := alpha / total) in *. clearbody q.
  pose proof (min_upper 100 (beta / total * 100 * 3)) as H1.
  pose proof (min_upper 30 (gamma / total * 100 * 2)) as H3.
  assert (H2 : Py.max 0 (50 - q * 100 * 2) <= 50).
  { destruct (max_cases 0 (50 - q * 100 * 2)) as [[_ ->]|[_ ->]]; lra. }
  apply Qle_shift_div_r; [reflexivity|].
  change (inject_Z 72) with 72. lra.
Qed.

End Keys.

End ClassifierMore.

(** ** More on the stable sort and the selector *)

Section SortMore.

Context {A : Type} (key : A -> Z).

Lemma filter_key_head (x : A) (l : list A) :
  filter (fun y => key y = key x) (x :: l)
  = x :: filter (fun y => key y = key x) l.
Proof. rewrite filter_cons. case_decide; [reflexivity | congruence]. Qed.

Lemma elem_of_filter_key (x : A) (l : list A) :
  x ∈ l <-> x ∈ filter (fun y => key y = key x) l.
Proof. rewrite list_elem_of_filter. tauto. Qed.

(** Two lists sorted by key that agree on every class of equal keys are
    the same list. *)
Lemma sorted_stable_unique (l1 l2 : list A) :
  StronglySorted (key_le key) l1 ->
  StronglySorted (key_le key) l2 ->
  (forall k, filter (fun y => key y = k) l1 = filter (fun y => key y = k) l2) ->
  l1 = l2.
Proof.
  intros H1. revert l2. induction H1 as [|x l1 Hs1 IH Hx]; intros l2 H2 Hf.
  - destruct l2 as [|y l2]; [reflexivity|].
    specialize (Hf (key y)). rewrite filter_key_head in Hf. discriminate.
  - destruct H2 as [|y l2 Hs2 Hy].
    { specialize (Hf (key x)). rewrite filter_key_head in Hf. discriminate. }
    assert (Hkey : key x = key y).
    { assert (Hxin : x ∈ y :: l2).
      { apply elem_of_filter_key. rewrite <- Hf, filter_key_head. left. }
      assert (Hyin : y ∈ x :: l1).
      { apply elem_of_filter_key. rewrite Hf, filter_key_head. left. }
      rewrite Forall_forall in Hx, Hy. unfold key_le in Hx, Hy.
      apply elem_of_cons in Hxin as [->|Hxin]; [reflexivity|].
      apply elem_of_cons in Hyin as [->|Hyin]; [reflexivity|].
      specialize (Hx y Hyin). specialize (Hy x Hxin). lia. }
    pose proof (Hf (key x)) as Hhead.
    rewrite filter_key_head, Hkey, filter_key_head in Hhead.
    injection Hhead as -> Htail. f_equal. apply IH; [exact Hs2|].
    intros k. specialize (Hf k). rewrite !(filter_cons _ y) in Hf.
    case_decide; [now injection Hf | exact Hf].
Qed.

Lemma sort_nil_iff (l : list A) : Py.sort key l = [] <-> l = [].
Proof.
  split; [|intros ->; reflexivity].
  intros H. apply Permutation_nil. rewrite <- H. apply sort_perm.
Qed.

End SortMore.

Section SelectorMore.

Import MentalStateClassifier RecommendationEngine.

Abbreviation engine := RecommendationEngine.init.

(** X14: the selector's output is the only arrangement of the collected
    recommendations that is sorted by priority and keeps the collected order
    within each priority: any stable sort gives this very list. *)
Theorem generate_unique_stable (ms : MentalState)
    (out : list Recommendation) :
  StronglySorted (fun r1 r2 => (priority r1 <= priority r2)%Z) out ->
  (forall p : Z,
     filter (fun r => priority r = p) out
     = filter (fun r => priority r = p) (collect engine ms)) ->
  out = generate engine ms.
Proof.
  intros Hsorted Hstable. unfold generate.
  apply (sorted_stable_unique priority); [exact Hsorted | apply sort_sorted |].
  intros p. rewrite sort_stable. apply Hstable.
Qed.

(** X15: the selector returns no recommendation exactly when no alarm rule
    fires and the steady-state test fails: stress at most 60, focus at
    least 40, sleepiness at most 70, and either focus above 70, or stress
    exactly 60, or sleepiness exactly 70. *)
Theorem generate_empty_iff (ms : MentalState) :
  generate engine ms = []
  <-> (stress_level ms <= 60 /\ 40 <= focus_level ms /\
       sleepiness_level ms <= 70 /\
       (70 < focus_level ms \/ stress_level ms = 60 \/
        sleepiness_level ms = 70))%Z.
Proof.
  unfold generate. rewrite sort_nil_iff, collect_eq.
  destruct (60 <? stress_level ms)%Z eqn:E1;
    destruct (focus_level ms <? 40)%Z eqn:E2;
    destruct (70 <? sleepiness_level ms)%Z eqn:E3;
    destruct (40 <=? focus_level ms)%Z eqn:E4;
    destruct (focus_level ms <=? 70)%Z eqn:E5;
    destruct (stress_level ms <? 60)%Z eqn:E6;
    destruct (sleepiness_level ms <? 70)%Z eqn:E7;
    simpl;
    repeat match goal with
           | H : (_ <? _)%Z = true |- _ => apply Z.ltb_lt in H
           | H : (_ <? _)%Z = false |- _ => apply Z.ltb_ge in H
           | H : (_ <=? _)%Z = true |- _ => apply Z.leb_le in H
           | H : (_ <=? _)%Z = false |- _ => apply Z.leb_gt in H
           end;
    (split; [intros H; try discriminate H; lia | intros H; try reflexivity; lia]).
Qed.

(** What every catalog entry satisfies. *)
Lemma collect_catalog (ms : MentalState) :
  Forall (fun r =>
            (1 <= priority r <= 3)%Z /\ (0 < duration_minutes r)%Z /\
            (is_Some (frequency_hz r) <-> type r = BINAURAL_BEATS))
    (collect engine ms).
Proof.
  rewrite collect_eq.
  assert (Hfreq : forall q : Q, is_Some (Some q) <-> BINAURAL_BEATS = BINAURAL_BEATS).
  { intros q. split; [reflexivity | eexists; reflexivity]. }
  assert (Hnone : forall ty, ty <> BINAURAL_BEATS ->
            is_Some (@None Q) <-> ty = BINAURAL_BEATS).
  { intros ty Hty. split; [intros [? ?]; discriminate | contradiction]. }
  repeat match goal with |- context [if ?c then _ else _] => destruct c end;
    simpl; repeat constructor; simpl;
    try lia; try apply Hfreq; try (apply Hnone; discriminate).
Qed.

(** X16: every recommendation the selector returns has a priority between
    1 and 3 and a positive duration, and carries a frequency exactly when
    it is of type binaural beats. *)
Theorem generate_catalog_invariant (ms : MentalState) :
  Forall (fun r =>
            (1 <= priority r <= 3)%Z /\ (0 < duration_minutes r)%Z /\
            (is_Some (frequency_hz r) <-> type r = BINAURAL_BEATS))
    (generate engine ms).
Proof.
  unfold generate. rewrite sort_perm. apply collect_catalog.
Qed.

(** X17: the sort loses and duplicates nothing: the output is a
    rearrangement of the collected recommendations, of which there are at
    most eight. *)
Theorem generate_permutation (ms : MentalState) :
  Permutation (generate engine ms) (collect engine ms) /\
  (length (generate engine ms) <= 8)%nat.
Proof.
  assert (Hperm : Permutation (generate engine ms) (collect engine ms))
    by apply sort_perm.
  split; [exact Hperm|]. rewrite Hperm, collect_eq.
  destruct (60 <? stress_level ms)%Z eqn:E1;
    destruct (stress_level ms <? 60)%Z eqn:E6;
    try (apply Z.ltb_lt in E1; apply Z.ltb_lt in E6; lia);
    rewrite ?andb_false_r; cbn [andb];
    unfold _stress_recommendations, _focus_recommendations,
      _sleepiness_recommendations, _maintenance_recommendations;
    repeat match goal with |- context [if ?c then _ else _] => destruct c end;
    rewrite ?length_app; simpl; lia.
Qed.

(** X18: as soon as one of the three alarm rules fires, the output starts
    with a recommendation of priority 1. *)
Theorem generate_alarm_head (ms : MentalState) :
  (60 < stress_level ms \/ focus_level ms < 40 \/
   70 < sleepiness_level ms)%Z ->
  exists r rest, generate engine ms = r :: rest /\ priority r = 1%Z.
Proof.
  intros Halarm.
  assert (Hone : exists r1, r1 ∈ collect engine ms /\ priority r1 = 1%Z).
  { rewrite collect_eq.
    destruct Halarm as [H|[H|H]]; apply Z.ltb_lt in H; rewrite H.
    - eexists. split; [|].
      + apply elem_of_app. left. unfold _stress_recommendations. left.
      + reflexivity.
    - eexists. split; [|].
      + apply elem_of_app. right. apply elem_of_app. left.
        unfold _focus_recommendations. left.
      + reflexivity.
    - eexists. split; [|].
      + apply elem_of_app. right. apply elem_of_app. right.
        apply elem_of_app. left. unfold _sleepiness_recommendations. left.
      + reflexivity. }
  destruct Hone as (r1 & Hin & Hp1).
  pose proof (sort_sorted priority (collect engine ms)) as Hsorted.
  pose proof (collect_priority_ge_1 ms) as Hge.
  rewrite <- (sort_perm priority) in Hin, Hge.
  fold (generate engine ms) in Hsorted, Hin, Hge.
  destruct (generate engine ms) as [|r rest]; [by apply elem_of_nil in Hin|].
  exists r, rest. split; [reflexivity|].
  apply Forall_cons_1 in Hge as [Hr _].
  apply StronglySorted_inv in Hsorted as [_ Hhead].
  apply elem_of_cons in Hin as [->|Hin]; [exact Hp1|].
  rewrite Forall_forall in Hhead. specialize (Hhead r1 Hin).
  unfold key_le in Hhead. lia.
Qed.

(** X19: the maintenance recommendation never comes with another one: an
    output that holds an entry of priority 3 is the single maintenance
    recommendation. *)
Theorem generate_maintenance_alone (ms : MentalState)
    (r : Recommendation) :
  r ∈ generate engine ms -> priority r = 3%Z ->
  generate engine ms = _maintenance_recommendations engine.
Proof.
  unfold generate. intros Hin Hp. rewrite sort_perm in Hin. revert Hin.
  rewrite collect_eq.
  destruct (60 <? stress_level ms)%Z eqn:E1;
    destruct (focus_level ms <? 40)%Z eqn:E2;
    destruct (70 <? sleepiness_level ms)%Z eqn:E3;
    destruct (((40 <=? focus_level ms)%Z && (focus_level ms <=? 70)%Z)
              && (stress_level ms <? 60)%Z
              && (sleepiness_level ms <? 70)%Z) eqn:E4;
    try (apply andb_prop in E4 as [E4 E7]; apply andb_prop in E4 as [E4 E6];
         apply andb_prop in E4 as [E4 E5];
         apply Z.ltb_lt in E6; apply Z.ltb_lt in E7; apply Z.leb_le in E4);
    repeat match goal with
           | H : (_ <? _)%Z = true |- _ => apply Z.ltb_lt in H
           | H : (_ <? _)%Z = false |- _ => apply Z.ltb_ge in H
           end;
    try lia; try reflexivity;
    simpl; intros Hin;
    repeat (apply elem_of_cons in Hin as [->|Hin]; [discriminate Hp|]);
    by apply elem_of_nil in Hin.
Qed.

End SelectorMore.

(** ** More on the streaming loop and the commands *)

Section Loop.

Import EEGSimulator App.

Lemma last_n_length_le {A} (n : nat) (l : list A) :
  (length (Py.last_n n l) <= n)%nat.
Proof. unfold Py.last_n. rewrite length_drop. lia. Qed.

(** Whatever [classify] returns has its levels in range. *)
Lemma classify_Some_range (self : MentalStateClassifier.t)
    (band_powers : gmap string Q) (ms : MentalStateClassifier.MentalState) :
  MentalStateClassifier.classify self band_powers = Some ms ->
  levels_in_range ms.
Proof.
  unfold MentalStateClassifier.classify.
  destruct (band_powers !! "delta_power"); [|discriminate].
  destruct (band_powers !! "theta_power"); [|discriminate].
  destruct (band_powers !! "alpha_power"); [|discriminate].
  destruct (band_powers !! "beta_power"); [|discriminate].
  destruct (band_powers !! "gamma_power"); [|discriminate].
  simpl. destruct (Py.ltb _ 1.0); intros [= <-]; unfold levels_in_range; simpl.
  - lia.
  - repeat split; apply int_clamp_range.
Qed.

(** The two ways a streaming pass can go. *)
Lemma stream_iteration_cases (g : Globals) (now : string) (noise : nat -> Q) :
  is_streaming g = true ->
  let streamed :=
    stream_samples (simulator g) (Some (current_mode g)) 0.25 noise in
  let buffered := eeg_buffer g ++ streamed.1 in
  (window_ready buffered = false /\
   stream_iteration g now noise
   = ({| simulator := streamed.2;
         eeg_buffer := buffered;
         session_data := session_data g;
         current_mode := current_mode g;
         is_streaming := is_streaming g |}, [], 0.25))
  \/
  (window_ready buffered = true /\
   exists packet,
     packet_consistent packet /\
     packet_current_mode packet = value (current_mode g) /\
     packet_band_powers packet
     = SignalProcessor.analyze_eeg_window (Py.last_n 512 buffered) /\
     stream_iteration g now noise
     = ({| simulator := streamed.2;
           eeg_buffer := Py.last_n 256 buffered;
           session_data := session_data g ++ [packet];
           current_mode := current_mode g;
           is_streaming := is_streaming g |},
        [emit_packet "eeg_update" packet], 0.25)).
Proof.
  intros Hon streamed buffered. unfold stream_iteration. rewrite Hon.
  simpl negb. cbv iota. subst buffered streamed.
  destruct (stream_samples _ _ 0.25 noise) as [samples simulator'].
  simpl fst. simpl snd.
  destruct (window_ready (eeg_buffer g ++ samples)) eqn:Hready.
  - right. split; [reflexivity|].
    destruct (analyze_then_classify (Py.last_n 512 (eeg_buffer g ++ samples)))
      as [mental_state Hms].
    rewrite Hms. eexists. split; [|split; [|split]]; [| | |reflexivity].
    + unfold packet_consistent. simpl. split; [exact Hms|].
      split; [eapply classify_Some_range, Hms|].
      split; [reflexivity|]. eexists. reflexivity.
    + reflexivity.
    + reflexivity.
  - left. split; reflexivity.
Qed.

(** X20: after a streaming pass the buffer always holds fewer than 512
    samples, however many it held before. *)
Theorem stream_iteration_buffer_bounded (g : Globals) (now : string)
    (noise : nat -> Q) :
  is_streaming g = true ->
  (length (eeg_buffer (stream_iteration g now noise).1.1) < 512)%nat.
Proof.
  intros Hon.
  destruct (stream_iteration_cases g now noise Hon)
    as [[Hnot ->]|[_ (packet & _ & _ & _ & ->)]]; simpl.
  - unfold window_ready in Hnot. apply Nat.leb_gt in Hnot. exact Hnot.
  - eapply Nat.le_lt_trans; [apply last_n_length_le|]. lia.
Qed.

(** X21: a pass never changes the active mode or the streaming flag; it
    only appends to the session, at most one packet, and what it emits is
    exactly what it appends. *)
Theorem stream_iteration_frame (g : Globals) (now : string)
    (noise : nat -> Q) :
  let '(g', emitted, _) := stream_iteration g now noise in
  current_mode g' = current_mode g /\
  is_streaming g' = is_streaming g /\
  exists new,
    session_data g' = session_data g ++ new /\
    emitted = map (emit_packet "eeg_update") new /\
    (length new <= 1)%nat.
Proof.
  destruct (is_streaming g) eqn:Hon.
  - destruct (stream_iteration_cases g now noise Hon)
      as [[_ ->]|[_ (packet & _ & _ & _ & ->)]]; simpl.
    + split; [reflexivity|]. split; [exact Hon|].
      exists []. rewrite app_nil_r. repeat split. simpl. lia.
    + split; [reflexivity|]. split; [exact Hon|].
      exists [packet]. repeat split. simpl. lia.
  - unfold stream_iteration. rewrite Hon. simpl.
    split; [reflexivity|]. split; [exact Hon|].
    exists []. rewrite app_nil_r. repeat split. simpl. lia.
Qed.

Lemma stream_iteration_consistent (g : Globals) (now : string)
    (noise : nat -> Q) :
  Forall packet_consistent (session_data g) ->
  Forall packet_consistent (session_data (stream_iteration g now noise).1.1).
Proof.
  intros Hall. destruct (is_streaming g) eqn:Hon.
  - destruct (stream_iteration_cases g now noise Hon)
      as [[_ ->]|[_ (packet & Hp & _ & _ & ->)]]; simpl; [exact Hall|].
    apply Forall_app. split; [exact Hall|]. constructor; [exact Hp|constructor].
  - unfold stream_iteration. rewrite Hon. exact Hall.
Qed.

Lemma run_succ (n : nat) (g : Globals) (now : nat -> string)
    (noise : nat -> nat -> Q) :
  (run (S n) g now noise).1
  = (run n (stream_iteration g (now O) (noise O)).1.1
       (fun k => now (S k)) (fun k => noise (S k))).1.
Proof.
  cbn [run]. destruct (stream_iteration g (now O) (noise O)) as [[g1 e1] p].
  cbn [fst]. destruct (run n g1 _ _) as [g2 e2]. reflexivity.
Qed.

(** X22: the session only ever holds packets that agree with the pipeline:
    if every stored packet has its mental state equal to the classification
    of its band powers, levels in [0,100], recommendations equal to the
    selector's output on that state, and the name of a mode, then the same
    holds after any number of passes. *)
Theorem run_session_consistent (n : nat) (g : Globals) (now : nat -> string)
    (noise : nat -> nat -> Q) :
  Forall packet_consistent (session_data g) ->
  Forall packet_consistent (session_data (run n g now noise).1).
Proof.
  revert g now noise. induction n as [|n IH]; intros g now noise Hall.
  - exact Hall.
  - rewrite run_succ. apply IH. now apply stream_iteration_consistent.
Qed.

(** X23: once streaming is stopped the loop idles: any number of passes
    leaves every global as the stop command left it and emits nothing. *)
Theorem run_after_stop (n : nat) (g : Globals) (now : nat -> string)
    (noise : nat -> nat -> Q) :
  run n (handle_stop_streaming g).1 now noise
  = ((handle_stop_streaming g).1, []).
Proof.
  revert now noise. induction n as [|n IH]; intros now noise.
  - reflexivity.
  - cbn [run]. unfold stream_iteration at 1. simpl is_streaming.
    cbv iota. simpl negb. cbv iota. rewrite IH. reflexivity.
Qed.

End Loop.

(** ** The cadence of windows *)

Section Cadence.

Import EEGSimulator App.

Lemma stream_samples_64 (self : EEGSimulator.t)
    (mode : option MentalStateMode) (noise : nat -> Q) :
  sampling_rate self = 256%Z ->
  length (stream_samples self mode 0.25 noise).1 = 64%nat /\
  sampling_rate (stream_samples self mode 0.25 noise).2 = 256%Z.
Proof.
  intros Hrate. unfold stream_samples. rewrite Hrate.
  change (Z.to_nat (Py.int (inject_Z 256 * 0.25))) with 64%nat.
  pose proof (stream_loop_spec 64 self mode noise) as H.
  destruct (stream_loop 64 self mode noise) as [samples self'].
  destruct H as (Hlen & Hr & _). simpl. split; congruence.
Qed.

(** One streaming pass at 256 Hz, seen through the two lengths. *)
Lemma stream_iteration_fill (g : Globals) (now : string) (noise : nat -> Q) :
  is_streaming g = true ->
  sampling_rate (simulator g) = 256%Z ->
  let g' := (stream_iteration g now noise).1.1 in
  is_streaming g' = true /\
  sampling_rate (simulator g') = 256%Z /\
  (length (eeg_buffer g'), length (session_data g'))
  = fill_step (length (eeg_buffer g), length (session_data g)).
Proof.
  intros Hon Hrate.
  destruct (stream_samples_64 (simulator g) (Some (current_mode g)) noise Hrate)
    as [H64 Hrate'].
  destruct (stream_iteration_cases g now noise Hon)
    as [[Hnot ->]|[Hready (packet & _ & _ & _ & ->)]];
    cbn [fst snd eeg_buffer session_data is_streaming simulator];
    (split; [exact Hon|]); (split; [exact Hrate'|]);
    unfold window_ready in *; unfold fill_step;
    rewrite length_app, H64 in *.
  - rewrite Hnot. reflexivity.
  - rewrite Hready. rewrite last_n_length.
    + simpl. f_equal. lia.
    + rewrite ?length_app, ?H64. apply Nat.leb_le in Hready. lia.
Qed.

Lemma run_fill (n : nat) (g : Globals) (now : nat -> string)
    (noise : nat -> nat -> Q) :
  is_streaming g = true ->
  sampling_rate (simulator g) = 256%Z ->
  let g' := (run n g now noise).1 in
  (length (eeg_buffer g'), length (session_data g'))
  = Nat.iter n fill_step (length (eeg_buffer g), length (session_data g)).
Proof.
  revert g now noise. induction n as [|n IH]; intros g now noise Hon Hrate.
  - reflexivity.
  - cbv zeta. rewrite run_succ, Nat.iter_succ_r.
    destruct (stream_iteration_fill g (now O) (noise O) Hon Hrate)
      as (Hon' & Hrate' & <-).
    now apply IH.
Qed.

Lemma fill_step_closed (n count : nat) :
  Nat.iter n fill_step (0%nat, count)
  = ((if n <? 8 then 64 * n else 256 + 64 * (n mod 4))%nat,
     (count + (if n <? 8 then 0 else n / 4 - 1))%nat).
Proof.
  induction n as [|n IH]; [simpl; f_equal; lia|].
  rewrite Nat.iter_succ, IH. unfold fill_step.
  assert (Hdm := Nat.div_mod_eq n 4).
  assert (Hm := Nat.mod_upper_bound n 4 ltac:(lia)).
  assert (Hdm' := Nat.div_mod_eq (S n) 4).
  assert (Hm' := Nat.mod_upper_bound (S n) 4 ltac:(lia)).
  destruct (n <? 8)%nat eqn:E; destruct (S n <? 8)%nat eqn:E';
    [apply Nat.ltb_lt in E | apply Nat.ltb_lt in E | apply Nat.ltb_ge in E
    | apply Nat.ltb_ge in E];
    [apply Nat.ltb_lt in E' | apply Nat.ltb_ge in E' | apply Nat.ltb_lt in E'
    | apply Nat.ltb_ge in E'];
    try lia.
  - replace (512 <=? 64 * n + 64)%nat with false
      by (symmetry; apply Nat.leb_gt; lia).
    f_equal; lia.
  - assert (n = 7)%nat as -> by lia.
    replace (512 <=? 64 * 7 + 64)%nat with true by reflexivity.
    f_equal; simpl; lia.
  - destruct (512 <=? 256 + 64 * (n mod 4) + 64)%nat eqn:F;
      [apply Nat.leb_le in F | apply Nat.leb_gt in F]; f_equal; lia.
Qed.

(** X24: with streaming on at 256 Hz and an empty buffer, the first packet
    is stored by the 8th pass and one more by every 4th pass after it:
    after [n] passes the session has grown by [n / 4 - 1] packets (none for
    [n < 8]) and the buffer holds [64 * n] samples for [n < 8] and
    [256 + 64 * (n mod 4)] afterwards. *)
Theorem run_cadence (n : nat) (g : Globals) (now : nat -> string)
    (noise : nat -> nat -> Q) :
  is_streaming g = true ->
  sampling_rate (simulator g) = 256%Z ->
  eeg_buffer g = [] ->
  let g' := (run n g now noise).1 in
  length (eeg_buffer g')
  = (if n <? 8 then 64 * n else 256 + 64 * (n mod 4))%nat /\
  length (session_data g')
  = (length (session_data g) + (if n <? 8 then 0 else n / 4 - 1))%nat.
Proof.
  intros Hon Hrate Hempty g'.
  pose proof (run_fill n g now noise Hon Hrate) as H. cbv zeta in H.
  fold g' in H. rewrite Hempty in H. simpl length in H at 3.
  rewrite fill_step_closed in H. injection H as H1 H2. split; assumption.
Qed.

End Cadence.

(** ** Session commands and mode changes *)

Section Session.

Import EEGSimulator App.





(** X26: a mode-change command without a [mode] entry is not rejected: it
    switches the active mode to RELAXED, whatever it was, and broadcasts the
    change. *)
Theorem handle_mode_change_default (g : Globals)
    (data : gmap string string) :
  data !! "mode" = None ->
  handle_mode_change g data
  = ({| simulator := simulator g;
        eeg_buffer := eeg_buffer g;
        session_data := session_data g;
        current_mode := RELAXED;
        is_streaming := is_streaming g |},
     [emit "mode_changed"
        {[ "mode" := "relaxed";
           "message" := "Mod relaxed olarak değiştirildi" ]}
        true]).
Proof.
  intros Hnone. unfold handle_mode_change. rewrite Hnone. reflexivity.
Qed.

(** X27: a mode change does not flush or relabel the buffer.  The handler
    leaves the buffer as it was; the streaming pass that follows appends
    samples generated under the new mode behind the samples buffered under
    the old one, and keeps that whole buffer, or its last 256 samples after
    a window; the window it analyses is the last 512 samples of the mixed
    buffer, and its packet is tagged with the new mode. *)
Theorem mode_change_then_pass (g : Globals) (data : gmap string string)
    (mode : MentalStateMode) (now : string) (noise : nat -> Q) :
  data !! "mode" = Some (value mode) ->
  is_streaming g = true ->
  let g1 := (handle_mode_change g data).1 in
  let '(g2, emitted, _) := stream_iteration g1 now noise in
  let fresh := (stream_samples (simulator g) (Some mode) 0.25 noise).1 in
  let buffered := eeg_buffer g ++ fresh in
  eeg_buffer g1 = eeg_buffer g /\
  eeg_buffer g2
  = (if window_ready buffered then Py.last_n 256 buffered else buffered) /\
  (forall packet, emit_packet "eeg_update" packet ∈ emitted ->
     packet_current_mode packet = value mode /\
     packet_band_powers packet
     = SignalProcessor.analyze_eeg_window (Py.last_n 512 buffered)).
Proof.
  intros Hdata Hon. unfold handle_mode_change. rewrite Hdata. simpl default.
  rewrite mode_map_value. cbn [fst].
  set (g1 := {| simulator := simulator g; eeg_buffer := eeg_buffer g;
                session_data := session_data g; current_mode := mode;
                is_streaming := is_streaming g |}).
  assert (Hon1 : is_streaming g1 = true) by exact Hon.
  destruct (stream_iteration_cases g1 now noise Hon1)
    as [[Hnot ->]|[Hready (packet & _ & Hmode & Hpowers & ->)]];
    cbn [eeg_buffer simulator current_mode g1] in *; cbv zeta.
  - split; [reflexivity|]. rewrite Hnot. split; [reflexivity|].
    intros packet Hin. by apply elem_of_nil in Hin.
  - split; [reflexivity|]. rewrite Hready. split; [reflexivity|].
    intros packet' Hin. apply list_elem_of_singleton in Hin.
    injection Hin as ->. split; [exact Hmode | exact Hpowers].
Qed.

End Session.

(** ** A stressed window, end to end *)

Section StressedWindow.

Import EEGSimulator SignalProcessor MentalStateClassifier RecommendationEngine.

Lemma sum_shift {A} (f h : A -> Q) (c : Q) (l : list A) :
  Forall (fun s => f s == h s + c) l ->
  Py.sum (map f l)
  == Py.sum (map h l) + c * inject_Z (Z.of_nat (length l)).
Proof.
  induction 1 as [|s l Hs _ IH].
  - change (Py.sum (map f [])) with 0. change (Py.sum (map h [])) with 0.
    change (inject_Z (Z.of_nat (length []))) with 0. ring.
  - cbn [map length]. rewrite !sum_cons, IH, Hs.
    rewrite Nat2Z.inj_succ, <- Z.add_1_r, inject_Z_plus.
    change (inject_Z 1) with 1. ring.
Qed.

(** The mean of a band that differs from another by a constant differs
    from its mean by that constant. *)
Lemma np_mean_shift {A} (f h : A -> Q) (c : Q) (l : list A) :
  l <> [] ->
  Forall (fun s => f s == h s + c) l ->
  np_mean (map f l) == np_mean (map h l) + c.
Proof.
  intros Hne Hall. unfold np_mean. rewrite !length_map, (sum_shift f h c l Hall).
  assert (Hlen : 0 < inject_Z (Z.of_nat (length l))).
  { change 0 with (inject_Z 0). rewrite <- Zlt_Qlt.
    destruct l; [contradiction | simpl; lia]. }
  field. lra.
Qed.

(** A sample generated under STRESSED with a noise draw in [-1, 1]. *)
Lemma stressed_sample (s : EEGSample) :
  (exists self noise,
     -1 <= noise /\ noise <= 1 /\
     s = generate_sample self (Some STRESSED) noise) ->
  (3 <= delta s /\ delta s <= 5) /\
  theta s == delta s + 2 /\ alpha s == delta s + 0 /\
  beta s == delta s + 16 /\ gamma s == delta s + 8.
Proof.
  intros (self & noise & Hlo & Hhi & ->). unfold generate_sample. simpl.
  assert (Hmax : forall x, 3 <= x -> Py.max 0.1 x = x).
  { intros x Hx. destruct (max_cases 0.1 x) as [[_ ->]|[Hle _]];
      [reflexivity | lra]. }
  rewrite !Hmax by lra. repeat split; try lra; ring.
Qed.

Lemma int_clamp_ge (x : Q) (n : Z) :
  (n <= 100)%Z -> inject_Z n <= x ->
  (n <= Py.int (Py.min 100 (Py.max 0 x)))%Z.
Proof.
  intros Hn Hx.
  assert (Hlo : 0 <= Py.min 100 (Py.max 0 x)).
  { apply min_lower; [discriminate | apply max_lower]. }
  rewrite int_floor by exact Hlo. rewrite <- (Qfloor_Z n).
  apply Qfloor_resp_le.
  assert (H100 : inject_Z n <= 100).
  { change 100 with (inject_Z 100). rewrite <- Zle_Qle. exact Hn. }
  destruct (min_cases 100 (Py.max 0 x)) as [[_ ->]|[_ ->]]; [|exact H100].
  destruct (max_cases 0 x) as [[_ ->]|[Hneg ->]]; lra.
Qed.

Lemma int_clamp_lt (x : Q) (n : Z) :
  (0 <= n)%Z -> x < inject_Z (n + 1) ->
  (Py.int (Py.min 100 (Py.max 0 x)) <= n)%Z.
Proof.
  intros Hn Hx.
  assert (Hlo : 0 <= Py.min 100 (Py.max 0 x)).
  { apply min_lower; [discriminate | apply max_lower]. }
  rewrite int_floor by exact Hlo.
  apply Z.lt_succ_r. unfold Z.succ. rewrite Zlt_Qlt.
  eapply Qle_lt_trans; [apply Qfloor_le|].
  assert (H1 : 0 < inject_Z (n + 1)).
  { change 0 with (inject_Z 0). rewrite <- Zlt_Qlt. lia. }
  destruct (min_cases 100 (Py.max 0 x)) as [[Hlt ->]|[Hge ->]];
    destruct (max_cases 0 x) as [[Hpos E]|[Hneg E]]; rewrite E in *; lra.
Qed.

Lemma focus_from_beta_ge_60 (beta_pct : Q) :
  20 <= beta_pct -> 60 <= focus_from_beta beta_pct.
Proof.
  intros H20. unfold focus_from_beta, Py.leb.
  apply Qle_bool_iff in H20 as ->. simpl.
  destruct (Qle_bool beta_pct 35) eqn:E; [lra|].
  assert (H35 : 35 < beta_pct).
  { apply Qnot_le_lt. intros H. apply Qle_bool_iff in H. congruence. }
  apply ltb_lt in H35 as H35b. rewrite H35b.
  destruct (min_cases 100 (beta_pct * 2)) as [[_ ->]|[_ ->]]; lra.
Qed.

(** X28: every non-empty window of samples generated under STRESSED with
    noise draws in [-1, 1] is classified with a stress level of at least
    64, a focus level of exactly 100 and a sleepiness level of at most 20,
    and the selector answers it with exactly the three stress
    recommendations in catalog order. *)
Theorem stressed_window_recommendations (samples : list EEGSample) :
  samples <> [] ->
  Forall (fun s => exists self noise,
            -1 <= noise /\ noise <= 1 /\
            s = generate_sample self (Some STRESSED) noise) samples ->
  exists ms,
    classify MentalStateClassifier.init (analyze_eeg_window samples) = Some ms
    /\ (64 <= stress_level ms)%Z
    /\ focus_level ms = 100%Z
    /\ (sleepiness_level ms <= 20)%Z
    /\ generate RecommendationEngine.init ms
       = _stress_recommendations RecommendationEngine.init.
Proof.
  intros Hne Hall.
  assert (Hs : Forall (fun s =>
            (3 <= delta s /\ delta s <= 5) /\
            theta s == delta s + 2 /\ alpha s == delta s + 0 /\
            beta s == delta s + 16 /\ gamma s == delta s + 8) samples).
  { eapply Forall_impl; [exact Hall|]. apply stressed_sample. }
  destruct (analyze_lookups samples Hne) as (Hd & Ht & Ha & Hb & Hg).
  assert (Bd : 3 <= np_mean (map delta samples) /\
               np_mean (map delta samples) <= 5).
  { apply np_mean_bounds; [destruct samples; [contradiction|discriminate]|].
    apply Forall_map. eapply Forall_impl; [exact Hs|]. simpl. tauto. }
  assert (Et : np_mean (map theta samples) == np_mean (map delta samples) + 2).
  { apply np_mean_shift; [exact Hne|].
    eapply Forall_impl; [exact Hs|]. simpl. tauto. }
  assert (Ea : np_mean (map alpha samples) == np_mean (map delta samples) + 0).
  { apply np_mean_shift; [exact Hne|].
    eapply Forall_impl; [exact Hs|]. simpl. tauto. }
  assert (Eb : np_mean (map beta samples) == np_mean (map delta samples) + 16).
  { apply np_mean_shift; [exact Hne|].
    eapply Forall_impl; [exact Hs|]. simpl. tauto. }
  assert (Eg : np_mean (map gamma samples) == np_mean (map delta samples) + 8).
  { apply np_mean_shift; [exact Hne|].
    eapply Forall_impl; [exact Hs|]. simpl. tauto. }
  unfold classify. rewrite Hd, Ht, Ha, Hb, Hg. simpl.
  set (d := np_mean (map delta samples)) in *.
  set (t := np_mean (map theta samples)) in *.
  set (a := np_mean (map alpha samples)) in *.
  set (b := np_mean (map beta samples)) in *.
  set (g := np_mean (map gamma samples)) in *.
  clearbody d t a b g. destruct Bd as [Bd1 Bd2].
  set (total := d + t + a + b + g).
  assert (Htotal : total == 5 * d + 26) by (unfold total; lra).
  assert (Hpos : 0 < total) by lra.
  assert (Hlow : Py.ltb total 1.0 = false) by (apply ltb_ge; lra).
  rewrite Hlow.
  assert (Qd : d / total <= 0.1) by (apply Qle_shift_div_r; lra).
  assert (Qd0 : 0 <= d / total) by (apply Qle_shift_div_l; lra).
  assert (Qt : t / total <= 0.14) by (apply Qle_shift_div_r; lra).
  assert (Qa : a / total <= 0.1) by (apply Qle_shift_div_r; lra).
  assert (Qb : 0.35 <= b / total) by (apply Qle_shift_div_l; lra).
  assert (Qg : 0.15 <= g / total) by (apply Qle_shift_div_l; lra).
  set (qd := d / total) in *. set (qt := t / total) in *.
  set (qa := a / total) in *. set (qb := b / total) in *.
  set (qg := g / total) in *. clearbody qd qt qa qb qg.
  eexists. split; [reflexivity|]. cbn [stress_level focus_level sleepiness_level].
  assert (Hstress : (64 <= _calculate_stress MentalStateClassifier.init
                             (qb * 100) (qa * 100) (qg * 100))%Z).
  { unfold _calculate_stress. apply int_clamp_ge; [lia|].
    change (inject_Z 64) with 64.
    destruct (min_cases 100 (qb * 100 * 3)) as [[H1 _]|[_ ->]]; [lra|].
    destruct (min_cases 30 (qg * 100 * 2)) as [[H3 _]|[_ ->]]; [lra|].
    destruct (max_cases 0 (50 - qa * 100 * 2)) as [[_ ->]|[H2 _]]; [|lra].
    apply Qle_shift_div_l; [reflexivity | lra]. }
  assert (Hfocus : _calculate_focus MentalStateClassifier.init
                     (qb * 100) (qg * 100) (qa * 100) = 100%Z).
  { unfold _calculate_focus. apply Z.le_antisymm; [apply int_clamp_range|].
    apply int_clamp_ge; [lia|]. change (inject_Z 100) with 100.
    pose proof (focus_from_beta_ge_60 (qb * 100) ltac:(lra)) as Hffb.
    destruct (min_cases 40 (qg * 100 * 3)) as [[H1 _]|[_ ->]]; [lra|].
    destruct (max_cases 0 ((qa * 100 - 30) * 0.5)) as [[H2 _]|[_ ->]]; lra. }
  assert (Hsleep : (_calculate_sleepiness MentalStateClassifier.init
                      (qd * 100) (qt * 100) (qb * 100) <= 20)%Z).
  { unfold _calculate_sleepiness. apply int_clamp_lt; [lia|].
    change (inject_Z (20 + 1)) with 21.
    destruct (max_cases 0 (30 - qb * 100)) as [[H1 _]|[_ ->]]; [lra|].
    assert (Hslow : (qd * 100 * 2 + qt * 100 * 1.5) / 2 <= 20.5).
    { apply Qle_shift_div_r; [reflexivity | lra]. }
    lra. }
  split; [exact Hstress|]. split; [exact Hfocus|]. split; [exact Hsleep|].
  unfold generate. rewrite collect_eq.
  cbn [stress_level focus_level sleepiness_level]. rewrite Hfocus.
  replace (60 <? _)%Z with true by (symmetry; apply Z.ltb_lt; lia).
  replace (70 <? _)%Z with false by (symmetry; apply Z.ltb_ge; lia).
  reflexivity.
Qed.

End StressedWindow.

(** ** The simulator's stored mode and clock *)

Section Clock.

Import EEGSimulator.

Lemma stream_loop_ignores_mode (count : nat) (self1 self2 : EEGSimulator.t)
    (mode : option MentalStateMode) (noise : nat -> Q) :
  time self1 = time self2 ->
  sampling_rate self1 = sampling_rate self2 ->
  (stream_loop count self1 mode noise).1
  = (stream_loop count self2 mode noise).1.
Proof.
  revert self1 self2 noise.
  induction count as [|count IH]; intros self1 self2 noise Htime Hrate;
    [reflexivity|].
  cbn [stream_loop].
  set (next1 := {| sampling_rate := sampling_rate self1;
                   time := time self1 + 1.0 / inject_Z (sampling_rate self1);
                   EEGSimulator.current_mode :=
                     EEGSimulator.current_mode self1 |}).
  set (next2 := {| sampling_rate := sampling_rate self2;
                   time := time self2 + 1.0 / inject_Z (sampling_rate self2);
                   EEGSimulator.current_mode :=
                     EEGSimulator.current_mode self2 |}).
  assert (Hrest : (stream_loop count next1 mode (fun k => noise (S k))).1
                  = (stream_loop count next2 mode (fun k => noise (S k))).1).
  { apply IH; subst next1 next2; simpl; congruence. }
  destruct (stream_loop count next1 mode _) as [rest1 s1].
  destruct (stream_loop count next2 mode _) as [rest2 s2].
  simpl in *. unfold generate_sample. rewrite Htime, Hrest. reflexivity.
Qed.

(** X29: the mode stored by [set_mode] is never read when samples are
    generated: a stream is the same whatever mode was stored before it,
    only the mode passed to [stream_samples] counts. *)
Theorem set_mode_ignored_by_stream (self : EEGSimulator.t)
    (stored : MentalStateMode) (mode : option MentalStateMode)
    (duration_seconds : Q) (noise : nat -> Q) :
  (stream_samples (set_mode self stored) mode duration_seconds noise).1
  = (stream_samples self mode duration_seconds noise).1.
Proof.
  unfold stream_samples. apply stream_loop_ignores_mode; reflexivity.
Qed.

(** X30: at the 256 Hz of the application, [reset_time] restarts the
    clock: sample number [k] of the next stream is stamped [k / 256],
    whatever the clock showed before.  The period 1/256 is a power of two,
    so each step of the clock is exact. *)
Theorem reset_time_restarts_clock (self : EEGSimulator.t)
    (mode : option MentalStateMode) (duration_seconds : Q)
    (noise : nat -> Q) (k : nat) (s : EEGSample) :
  sampling_rate self = 256%Z ->
  (stream_samples (reset_time self) mode duration_seconds noise).1 !! k
  = Some s ->
  timestamp s == inject_Z (Z.of_nat k) / 256.
Proof.
  intros Hrate. unfold stream_samples. set (count := Z.to_nat _).
  pose proof (stream_loop_spec count (reset_time self) mode noise) as H.
  destruct (stream_loop count (reset_time self) mode noise)
    as [samples self'].
  destruct H as (_ & _ & _ & _ & Hstamp & _). simpl.
  intros Hk. rewrite (Hstamp k s Hk). simpl. rewrite Hrate.
  change (inject_Z 256) with 256. field.
Qed.

End Clock.

(** ** Further concrete runs *)

Section MoreRuns.

Import EEGSimulator SignalProcessor MentalStateClassifier RecommendationEngine.
Import App Scenarios MoreScenarios.

Lemma stream_samples_timestamps_increase_witness :
  timestamp (generate_sample (EEGSimulator.init 256) (Some FOCUSED) 0)
  < timestamp
      (generate_sample
         {| EEGSimulator.sampling_rate := 256;
            EEGSimulator.time := 0.0 + 1.0 / inject_Z 256;
            EEGSimulator.current_mode := RELAXED |}
         (Some FOCUSED) 0).
Proof.
  apply (stream_samples_timestamps_increase (EEGSimulator.init 256)
           (Some FOCUSED) 0.25 (fun _ => 0) 0 1).
  - simpl. lia.
  - lia.
  - vm_compute. reflexivity.
  - vm_compute. reflexivity.
Defined.

Lemma reset_time_restarts_clock_witness :
  timestamp
    (generate_sample
       {| EEGSimulator.sampling_rate := 256;
          EEGSimulator.time := 0.0 + 1.0 / inject_Z 256;
          EEGSimulator.current_mode := RELAXED |}
       (Some SLEEPY) 0)
  == inject_Z (Z.of_nat 1) / 256.
Proof.
  apply (reset_time_restarts_clock
           {| EEGSimulator.sampling_rate := 256;
              EEGSimulator.time := 5;
              EEGSimulator.current_mode := RELAXED |}
           (Some SLEEPY) 0.25 (fun _ => 0) 1).
  - reflexivity.
  - vm_compute. reflexivity.
Defined.

Lemma stream_samples_advance_witness :
  let count := Z.to_nat (Py.int (256 * 0.25)) in
  let '(samples, self') :=
    stream_samples (EEGSimulator.init 256) (Some RELAXED) 0.25 (fun _ => 0) in
  length samples = count /\
  EEGSimulator.sampling_rate self' = 256%Z /\
  EEGSimulator.current_mode self'
  = EEGSimulator.current_mode (EEGSimulator.init 256) /\
  EEGSimulator.time self' == inject_Z (Z.of_nat (0 + count)) / 256.
Proof.
  apply (stream_samples_advance (EEGSimulator.init 256) (Some RELAXED) 0.25
           (fun _ => 0) 0); reflexivity.
Defined.

Lemma generate_sample_unfloored_witness :
  let '(d, t, a, b, g) := profile (Some SLEEPY) (-0.8) in
  let s := generate_sample (EEGSimulator.init 256) (Some SLEEPY) (-0.8) in
  delta s == d /\ theta s == t /\ alpha s == a /\ beta s == b /\
  gamma s == g.
Proof.
  apply (generate_sample_unfloored (EEGSimulator.init 256) (Some SLEEPY)
           (-0.8)).
  apply Qle_refl.
Defined.

Lemma calculate_ratios_of_floored_window_witness :
  exists r total beta_alpha theta_beta,
    calculate_ratios (analyze_eeg_window stressed_pair) = Some r /\
    r !! "total_power" = Some total /\ 0.4 <= total /\
    r !! "beta_alpha_ratio" = Some beta_alpha /\ 0 < beta_alpha /\
    r !! "theta_beta_ratio" = Some theta_beta /\ 0 < theta_beta.
Proof.
  apply (calculate_ratios_of_floored_window stressed_pair).
  - discriminate.
  - unfold stressed_pair, within, bands.
    repeat constructor; simpl; discriminate.
Defined.

Lemma calculate_confidence_monotone_witness :
  _calculate_confidence MentalStateClassifier.init 5
  <= _calculate_confidence MentalStateClassifier.init 25.
Proof.
  apply (calculate_confidence_monotone MentalStateClassifier.init 5 25).
  discriminate.
Defined.

Lemma classify_confidence_zero_iff_witness :
  exists ms,
    classify MentalStateClassifier.init stressed_powers = Some ms /\
    (confidence ms == 0 <-> 4 + 6 + 4 + 20 + 12 < 1.0) /\
    (1.0 <= 4 + 6 + 4 + 20 + 12 -> 0.3 <= confidence ms).
Proof.
  apply (classify_confidence_zero_iff MentalStateClassifier.init
           stressed_powers 4 6 4 20 12); reflexivity.
Defined.

Lemma classify_stress_at_most_72_witness :
  exists ms,
    classify MentalStateClassifier.init stressed_powers = Some ms /\
    (stress_level ms <= 72)%Z.
Proof.
  apply (classify_stress_at_most_72 MentalStateClassifier.init
           stressed_powers 4 6 4 20 12); try reflexivity; discriminate.
Defined.

Lemma generate_unique_stable_witness :
  _stress_recommendations RecommendationEngine.init
  = generate RecommendationEngine.init high_stress.
Proof.
  apply (generate_unique_stable high_stress).
  - unfold _stress_recommendations. repeat constructor; simpl; lia.
  - intros p. reflexivity.
Defined.

Lemma generate_alarm_head_witness :
  exists r rest,
    generate RecommendationEngine.init high_stress = r :: rest /\
    priority r = 1%Z.
Proof.
  apply (generate_alarm_head high_stress). left. simpl. lia.
Defined.

Lemma generate_maintenance_alone_witness :
  generate RecommendationEngine.init normal_state
  = _maintenance_recommendations RecommendationEngine.init.
Proof.
  eapply (generate_maintenance_alone normal_state).
  - change (generate RecommendationEngine.init normal_state)
      with (_maintenance_recommendations RecommendationEngine.init).
    unfold _maintenance_recommendations. left.
  - reflexivity.
Defined.

Lemma stream_iteration_buffer_bounded_witness :
  (length
     (eeg_buffer
        (stream_iteration nearly_full "2026-01-01T00:00:00"
           (fun _ => 0%Q)).1.1)
   < 512)%nat.
Proof.
  apply (stream_iteration_buffer_bounded nearly_full). reflexivity.
Defined.

Lemma run_session_consistent_witness :
  Forall packet_consistent
    (session_data
       (run 1 nearly_full (fun _ => "2026-01-01T00:00:00")
          (fun _ _ => 0)).1).
Proof.
  apply (run_session_consistent 1 nearly_full). constructor.
Defined.

Lemma run_cadence_witness :
  let g' :=
    (run 9 started (fun _ => "2026-01-01T00:00:00") (fun _ _ => 0)).1 in
  length (eeg_buffer g')
  = (if 9 <? 8 then 64 * 9 else 256 + 64 * (9 mod 4))%nat /\
  length (session_data g')
  = (length (session_data started) + (if 9 <? 8 then 0 else 9 / 4 - 1))%nat.
Proof.
  apply (run_cadence 9 started); reflexivity.
Defined.


Lemma handle_mode_change_default_witness :
  handle_mode_change one_packet ∅
  = ({| simulator := simulator one_packet;
        eeg_buffer := eeg_buffer one_packet;
        session_data := session_data one_packet;
        current_mode := RELAXED;
        is_streaming := is_streaming one_packet |},
     [emit "mode_changed"
        {[ "mode" := "relaxed";
           "message" := "Mod relaxed olarak değiştirildi" ]}
        true]).
Proof. apply (handle_mode_change_default one_packet ∅). reflexivity. Defined.

Lemma mode_change_then_pass_witness :
  let g1 := (handle_mode_change nearly_full {[ "mode" := "relaxed" ]}).1 in
  let '(g2, emitted, _) :=
    stream_iteration g1 "2026-01-01T00:00:00" (fun _ => 0) in
  let fresh :=
    (stream_samples (simulator nearly_full) (Some RELAXED) 0.25
       (fun _ => 0)).1 in
  let buffered := eeg_buffer nearly_full ++ fresh in
  eeg_buffer g1 = eeg_buffer nearly_full /\
  eeg_buffer g2
  = (if window_ready buffered then Py.last_n 256 buffered else buffered) /\
  (forall packet, emit_packet "eeg_update" packet ∈ emitted ->
     packet_current_mode packet = value RELAXED /\
     packet_band_powers packet
     = SignalProcessor.analyze_eeg_window (Py.last_n 512 buffered)).
Proof.
  apply (mode_change_then_pass nearly_full {[ "mode" := "relaxed" ]} RELAXED);
    reflexivity.
Defined.

Lemma stressed_window_recommendations_witness :
  exists ms,
    classify MentalStateClassifier.init (analyze_eeg_window stressed_pair)
    = Some ms
    /\ (64 <= stress_level ms)%Z
    /\ focus_level ms = 100%Z
    /\ (sleepiness_level ms <= 20)%Z
    /\ generate RecommendationEngine.init ms
       = _stress_recommendations RecommendationEngine.init.
Proof.
  apply (stressed_window_recommendations stressed_pair).
  - discriminate.
  - unfold stressed_pair.
    constructor; [|constructor; [|constructor]].
    + exists (EEGSimulator.init 256), 0.5.
      split; [discriminate|]. split; [discriminate | reflexivity].
    + exists (EEGSimulator.init 256), (-1).
      split; [discriminate|]. split; [discriminate | reflexivity].
Defined.

End MoreRuns.
